(** * n8n Integration Hub: health polling, execution feed and workflow actions

    A shallow embedding of the three viewer slots of the module
    (IntegrationStatus, ExecutionMonitor, WorkflowStatusPanel), of the
    API client calls they issue and of the timers they own, followed by the
    properties of the polling / aggregation / action core.

    Each React component is a record of its [useState] cells together with
    the resources the component owns: the handle of its [setInterval], the
    promises it is awaiting and the requests it has sent through its API
    client.  An [async] function is split at its [await]s: the part before
    the [await] registers a pending promise that remembers the values the
    closure captured, the part after it runs when that promise settles. *)

From Stdlib Require Import ZArith List String Ascii Bool Lia.
From stdpp Require Import base option list.
Import ListNotations.

Local Open Scope string_scope.
Local Open Scope list_scope.
Local Open Scope Z_scope.

(** ** JavaScript values used by the components *)

Module Js.

(** A settled promise: fulfilled with a value or rejected with an error. *)
Inductive Settled (A : Type) : Type :=
| Fulfilled (value : A)
| Rejected (message : option string).
Arguments Fulfilled {A} value.
Arguments Rejected {A} message.

(** [s || fallback] for an optional string: [undefined] and the empty
    string are falsy. *)
Definition orElse (s : option string) (fallback : string) : string :=
  match s with
  | Some m => if String.eqb m "" then fallback else m
  | None => fallback
  end.

(** Truthiness of an optional string, as in [error && ...]. *)
Definition truthy (s : option string) : bool :=
  match s with
  | Some m => negb (String.eqb m "")
  | None => false
  end.

(** [a === b] on optional strings. *)
Definition sameText (a b : option string) : bool :=
  match a, b with
  | Some x, Some y => String.eqb x y
  | None, None => true
  | _, _ => false
  end.

(** [String.prototype.toLowerCase] on ASCII text. *)
Definition lowerChar (c : ascii) : ascii :=
  let n := nat_of_ascii c in
  if ((65 <=? n) && (n <=? 90))%nat then ascii_of_nat (n + 32) else c.

Fixpoint toLowerCase (s : string) : string :=
  match s with
  | EmptyString => EmptyString
  | String c s' => String (lowerChar c) (toLowerCase s')
  end.

Fixpoint startsWith (p s : string) : bool :=
  match p, s with
  | EmptyString, _ => true
  | String a p', String b s' => Ascii.eqb a b && startsWith p' s'
  | String _ _, EmptyString => false
  end.

(** [s.includes(p)]. *)
Fixpoint includes (s p : string) : bool :=
  startsWith p s ||
  match s with
  | EmptyString => false
  | String _ s' => includes s' p
  end.

(** *** [Date.prototype.toISOString]

    A date is its time value, the milliseconds since the epoch.  The
    calendar date comes from the day number by the usual proleptic
    Gregorian computation on 400-year eras starting on 1 March. *)

Definition digit (n : Z) : string :=
  String (ascii_of_nat (48 + Z.to_nat (n mod 10))) EmptyString.

Fixpoint pad (width : nat) (n : Z) : string :=
  match width with
  | O => EmptyString
  | S w => String.append (pad w (n / 10)) (digit n)
  end.

Definition msPerDay : Z := 86400000.

Definition civil (day : Z) : Z * Z * Z :=
  let z := day + 719468 in
  let era := z / 146097 in
  let doe := z - era * 146097 in
  let yoe := (doe - doe / 1460 + doe / 36524 - doe / 146096) / 365 in
  let doy := doe - (365 * yoe + yoe / 4 - yoe / 100) in
  let mp := (5 * doy + 2) / 153 in
  let d := doy - (153 * mp + 2) / 5 + 1 in
  let m := if mp <? 10 then mp + 3 else mp - 9 in
  let y := yoe + era * 400 + (if m <=? 2 then 1 else 0) in
  (y, m, d).

Definition yearText (y : Z) : string :=
  if (0 <=? y) && (y <=? 9999) then pad 4 y
  else if y <? 0 then String.append "-" (pad 6 (- y))
  else String.append "+" (pad 6 y).

Definition toISOString (t : Z) : string :=
  let day := t / msPerDay in
  let ms := t mod msPerDay in
  let '(y, m, d) := civil day in
  String.concat ""
    [ yearText y; "-"; pad 2 m; "-"; pad 2 d; "T";
      pad 2 (ms / 3600000); ":"; pad 2 (ms / 60000 mod 60); ":";
      pad 2 (ms / 1000 mod 60); "."; pad 3 (ms mod 1000); "Z" ].

End Js.

(** ** Types of the API client (types/integrations.ts)

    Only the fields that some component reads are kept; every interface
    lives in a module of its own so that the fields keep their names. *)

Module IntegrationHealth.
Inductive Status := healthy | degraded | unhealthy | unknown.

Record t := {
  id : string;
  name : string;
  status : Status;
  lastCheck : string;
  latency : option Z;
  message : option string
}.
End IntegrationHealth.

Module N8nWorkflow.
Record t := {
  id : string;
  name : string;
  active : bool;
  createdAt : string;
  updatedAt : string;
  tags : option (list string)
}.
End N8nWorkflow.

Module N8nExecution.
Inductive Mode := manual | trigger | webhook.
Inductive Status := success | error | running | waiting.

Record t := {
  id : string;
  workflowId : string;
  finished : bool;
  mode : Mode;
  startedAt : string;
  stoppedAt : option string;
  status : Status
}.
End N8nExecution.

Module SentinelAnalysisRequest.
Inductive VegetationIndex := NDVI | NDWI | EVI | SAVI | NDRE.

Record t := {
  parcelId : string;
  startDate : string;
  endDate : string;
  indices : list VegetationIndex;
  cloudCoverMax : option Z
}.
End SentinelAnalysisRequest.

Module PredictionRequest.
Inductive Kind := production | pest | disease | irrigation.

(** [entityType] is passed with a non-null assertion, so the value sent can
    still be [undefined]. *)
Record t := {
  type : Kind;
  entityId : string;
  entityType : option string
}.
End PredictionRequest.

(** ** The API client (services/api.ts)

    Every method is one HTTP request; a component's client is modelled by
    the log of the requests sent through it, each stamped with the clock
    reading at which it was sent. *)

Module Api.

Record ExecuteData := {
  entityId : string;
  entityType : option string
}.

Record ExecutionsParams := {
  status : option string;
  limit : Z
}.

Inductive Call :=
| getIntegrationsHealth
| getWorkflows
| executeWorkflow (id : string) (data : ExecuteData)
| getExecutions (params : ExecutionsParams)
| requestAnalysis (request : SentinelAnalysisRequest.t)
| requestPrediction (request : PredictionRequest.t).

Definition Log := list (Z * Call).

Record WorkflowsResponse := { workflows : list N8nWorkflow.t }.
Record ExecutionsResponse := { executions : list N8nExecution.t }.

Definition isGetExecutions (c : Call) : bool :=
  match c with getExecutions _ => true | _ => false end.

Definition isGetIntegrationsHealth (c : Call) : bool :=
  match c with getIntegrationsHealth => true | _ => false end.

Definition isGetWorkflows (c : Call) : bool :=
  match c with getWorkflows => true | _ => false end.

(** The base path every request of the client goes under. *)
Definition API_BASE : string := "/api/n8n-nkz".

(** [getRobotTelemetryUrl]: the one method that builds a URL instead of
    making a request. *)
Definition getRobotTelemetryUrl (robotId : string) : string :=
  String.concat ""
    [ API_BASE; "/ros2/robots/"; robotId; "/telemetry/stream" ].

End Api.

(** A handle returned by [setInterval]: the time at which the callback is
    due next and the closure that was passed as the callback. *)
Record Interval (Closure : Type) := {
  due : Z;
  callback : Closure
}.
Arguments due {Closure} _.
Arguments callback {Closure} _.

(** ** IntegrationStatus (layer-toggle slot): the health aggregator *)

Module IntegrationStatus.

Inductive Icon := Workflow | Satellite | Brain | Bell | Database | Bot.

#[global] Instance Status_eq_dec : EqDecision IntegrationHealth.Status.
Proof. solve_decision. Defined.

Record Integration := {
  id : string;
  name : string;
  icon : Icon;
  status : IntegrationHealth.Status;
  latency : option Z
}.

(** What [checkHealth] reads from the render that created it. *)
Record Closure := { captured_isAuthenticated : bool }.

Record State := {
  integrations : list Integration;
  loading : bool;
  expanded : bool;
  isAuthenticated : bool;              (* useAuth(), as of the last render *)
  interval : option (Interval Closure);(* the effect's setInterval handle *)
  pending : nat;                       (* getIntegrationsHealth promises awaited *)
  api : Api.Log
}.

(** The initial value of the [integrations] cell. *)
Definition registry : list Integration :=
  [ {| id := "n8n"; name := "n8n"; icon := Workflow;
       status := IntegrationHealth.unknown; latency := None |};
    {| id := "sentinel"; name := "NDVI"; icon := Satellite;
       status := IntegrationHealth.unknown; latency := None |};
    {| id := "intelligence"; name := "AI"; icon := Brain;
       status := IntegrationHealth.unknown; latency := None |};
    {| id := "notifications"; name := "Alerts"; icon := Bell;
       status := IntegrationHealth.unknown; latency := None |};
    {| id := "odoo"; name := "ERP"; icon := Database;
       status := IntegrationHealth.unknown; latency := None |};
    {| id := "ros2"; name := "Robots"; icon := Bot;
       status := IntegrationHealth.unknown; latency := None |} ].

(** The component before its first effect, for a registry [reg]; the
    component itself is [initial registry]. *)
Definition initial (reg : list Integration) (auth : bool) : State :=
  {| integrations := reg; loading := false; expanded := false;
     isAuthenticated := auth; interval := None; pending := 0%nat;
     api := [] |}.

Definition setIntegrations (f : list Integration -> list Integration)
    (st : State) : State :=
  {| integrations := f (integrations st); loading := loading st;
     expanded := expanded st; isAuthenticated := isAuthenticated st;
     interval := interval st; pending := pending st; api := api st |}.

Definition setLoading (b : bool) (st : State) : State :=
  {| integrations := integrations st; loading := b;
     expanded := expanded st; isAuthenticated := isAuthenticated st;
     interval := interval st; pending := pending st; api := api st |}.

Definition setExpanded (b : bool) (st : State) : State :=
  {| integrations := integrations st; loading := loading st;
     expanded := b; isAuthenticated := isAuthenticated st;
     interval := interval st; pending := pending st; api := api st |}.

Definition withAuth (b : bool) (st : State) : State :=
  {| integrations := integrations st; loading := loading st;
     expanded := expanded st; isAuthenticated := b;
     interval := interval st; pending := pending st; api := api st |}.

Definition withInterval (h : option (Interval Closure)) (st : State) : State :=
  {| integrations := integrations st; loading := loading st;
     expanded := expanded st; isAuthenticated := isAuthenticated st;
     interval := h; pending := pending st; api := api st |}.

(** [await api.getIntegrationsHealth()]: the request goes out and the
    caller is suspended on its promise. *)
Definition await_getIntegrationsHealth (now : Z) (st : State) : State :=
  {| integrations := integrations st; loading := loading st;
     expanded := expanded st; isAuthenticated := isAuthenticated st;
     interval := interval st; pending := S (pending st);
     api := api st ++ [(now, Api.getIntegrationsHealth)] |}.

Definition resumed (st : State) : State :=
  {| integrations := integrations st; loading := loading st;
     expanded := expanded st; isAuthenticated := isAuthenticated st;
     interval := interval st; pending := Nat.pred (pending st);
     api := api st |}.

(** [checkHealth], up to its [await]. *)
Definition checkHealth (c : Closure) (now : Z) (st : State) : State :=
  if negb (captured_isAuthenticated c) then st
  else await_getIntegrationsHealth now (setLoading true st).

(** The updater of the [try] branch.  All four status literals are truthy,
    so [health?.status || 'unknown'] falls back exactly when [find] found
    nothing. *)
Definition merge (healthData : list IntegrationHealth.t)
    (integration : Integration) : Integration :=
  let health :=
    find (fun h => String.eqb (IntegrationHealth.id h) (id integration))
      healthData in
  {| id := id integration; name := name integration;
     icon := icon integration;
     status := match health with
               | Some h => IntegrationHealth.status h
               | None => IntegrationHealth.unknown
               end;
     latency := match health with
                | Some h => IntegrationHealth.latency h
                | None => None
                end |}.

(** The updater of the [catch] branch: [{ ...i, status: 'unknown' }]. *)
Definition markUnknown (i : Integration) : Integration :=
  {| id := id i; name := name i; icon := icon i;
     status := IntegrationHealth.unknown; latency := latency i |}.

(** [checkHealth], from its [await] on.  A rejected promise and a value
    on which [healthData.find] throws both land in the [catch] branch. *)
Definition checkHealth_settled
    (r : Js.Settled (list IntegrationHealth.t)) (st : State) : State :=
  let st' :=
    match r with
    | Js.Fulfilled healthData => setIntegrations (map (merge healthData)) st
    | Js.Rejected _ => setIntegrations (map markUnknown) st
    end in
  setLoading false st'.

(** The effect on [[isAuthenticated]]. *)
Definition pollInterval : Z := 60000.

Definition capture (st : State) : Closure :=
  {| captured_isAuthenticated := isAuthenticated st |}.

Definition setInterval (c : Closure) (now : Z) (st : State) : State :=
  withInterval (Some {| due := now + pollInterval; callback := c |}) st.

Definition clearInterval (st : State) : State := withInterval None st.

Definition effect (now : Z) (st : State) : State :=
  let c := capture st in
  setInterval c now (checkHealth c now st).

Definition mount (reg : list Integration) (auth : bool) (now : Z) : State :=
  effect now (initial reg auth).

(** [useAuth()] returns a new value: the component renders again, and the
    effect is cleaned up and run again only when the dependency changed. *)
Definition authChanged (auth : bool) (now : Z) (st : State) : State :=
  if Bool.eqb auth (isAuthenticated st) then st
  else effect now (clearInterval (withAuth auth st)).

(** *** What is rendered *)

Record Card := {
  dots : list (string * IntegrationHealth.Status);
  healthyCount : nat;
  totalCount : nat;
  refreshDisabled : bool;
  details : option (list Integration)
}.

Definition render (st : State) : option Card :=
  if negb (isAuthenticated st) then None
  else Some
    {| dots := map (fun i => (name i, status i)) (firstn 6 (integrations st));
       healthyCount :=
         length (filter (fun i => status i = IntegrationHealth.healthy)
                   (integrations st));
       totalCount := length (integrations st);
       refreshDisabled := loading st;
       details := if expanded st then Some (integrations st) else None |}.

(** *** Events *)

Inductive Event :=
| IntervalFired
| RefreshClicked
| HeaderClicked
| HealthSettled (r : Js.Settled (list IntegrationHealth.t)).

(** The refresh button exists only in the rendered card and is disabled
    while [loading]. *)
Definition refreshEnabled (st : State) : bool :=
  isAuthenticated st && negb (loading st).

Definition step (now : Z) (st : State) (ev : Event) : option State :=
  match ev with
  | IntervalFired =>
      match interval st with
      | Some h =>
          if due h =? now
          then Some (setInterval (callback h) now
                       (checkHealth (callback h) now st))
          else None
      | None => None
      end
  | RefreshClicked =>
      if refreshEnabled st then Some (checkHealth (capture st) now st)
      else None
  | HeaderClicked =>
      if isAuthenticated st then Some (setExpanded (negb (expanded st)) st)
      else None
  | HealthSettled r =>
      match pending st with
      | O => None
      | S _ => Some (checkHealth_settled r (resumed st))
      end
  end.

(** *** Presentation helpers *)

(** The string a status literal is at run time. *)
Definition literal (s : IntegrationHealth.Status) : string :=
  match s with
  | IntegrationHealth.healthy => "healthy"
  | IntegrationHealth.degraded => "degraded"
  | IntegrationHealth.unhealthy => "unhealthy"
  | IntegrationHealth.unknown => "unknown"
  end.

(** [getStatusColor]: a [switch] on the string with a [default]. *)
Definition getStatusColor (status : string) : string :=
  if String.eqb status "healthy" then "bg-green-500"
  else if String.eqb status "degraded" then "bg-yellow-500"
  else if String.eqb status "unhealthy" then "bg-red-500"
  else "bg-gray-400".

Inductive Glyph := CheckCircle2 | AlertCircle | Clock.

(** [getStatusIcon]: the icon and its class. *)
Definition getStatusIcon (status : string) : Glyph * string :=
  if String.eqb status "healthy" then (CheckCircle2, "w-3 h-3 text-green-500")
  else if String.eqb status "degraded" then (AlertCircle, "w-3 h-3 text-yellow-500")
  else if String.eqb status "unhealthy" then (AlertCircle, "w-3 h-3 text-red-500")
  else (Clock, "w-3 h-3 text-gray-400").

End IntegrationStatus.

(** ** ExecutionMonitor (bottom-panel slot): the execution feed *)

Module ExecutionMonitor.

Module ExecutionItem.
Inductive Status := success | error | running | waiting.

(** The string a status literal is at run time. *)
Definition literal (s : Status) : string :=
  match s with
  | success => "success"
  | error => "error"
  | running => "running"
  | waiting => "waiting"
  end.

Record t := {
  id : string;
  workflowId : string;
  workflowName : string;
  status : Status;
  startedAt : string;
  duration : option Z;
  mode : string
}.
End ExecutionItem.

(** What [fetchExecutions] reads from the render that created it. *)
Record Closure := {
  captured_isAuthenticated : bool;
  captured_filter : string;
  captured_expanded : bool
}.

Record State := {
  executions : list ExecutionItem.t;
  loading : bool;
  error : option string;
  filter : string;
  expanded : bool;
  autoRefresh : bool;
  isAuthenticated : bool;               (* useAuth(), as of the last render *)
  interval : option (Interval Closure); (* the effect's setInterval handle *)
  pending : list Closure;               (* getExecutions promises awaited *)
  api : Api.Log
}.

Definition initial (auth : bool) : State :=
  {| executions := []; loading := false; error := None; filter := "all";
     expanded := false; autoRefresh := true; isAuthenticated := auth;
     interval := None; pending := []; api := [] |}.

Definition setExecutions (v : list ExecutionItem.t) (st : State) : State :=
  {| executions := v; loading := loading st; error := error st;
     filter := filter st; expanded := expanded st;
     autoRefresh := autoRefresh st; isAuthenticated := isAuthenticated st;
     interval := interval st; pending := pending st; api := api st |}.

Definition setLoading (b : bool) (st : State) : State :=
  {| executions := executions st; loading := b; error := error st;
     filter := filter st; expanded := expanded st;
     autoRefresh := autoRefresh st; isAuthenticated := isAuthenticated st;
     interval := interval st; pending := pending st; api := api st |}.

Definition setError (e : option string) (st : State) : State :=
  {| executions := executions st; loading := loading st; error := e;
     filter := filter st; expanded := expanded st;
     autoRefresh := autoRefresh st; isAuthenticated := isAuthenticated st;
     interval := interval st; pending := pending st; api := api st |}.

Definition setFilter (v : string) (st : State) : State :=
  {| executions := executions st; loading := loading st; error := error st;
     filter := v; expanded := expanded st;
     autoRefresh := autoRefresh st; isAuthenticated := isAuthenticated st;
     interval := interval st; pending := pending st; api := api st |}.

Definition setExpanded (b : bool) (st : State) : State :=
  {| executions := executions st; loading := loading st; error := error st;
     filter := filter st; expanded := b;
     autoRefresh := autoRefresh st; isAuthenticated := isAuthenticated st;
     interval := interval st; pending := pending st; api := api st |}.

Definition setAutoRefresh (b : bool) (st : State) : State :=
  {| executions := executions st; loading := loading st; error := error st;
     filter := filter st; expanded := expanded st;
     autoRefresh := b; isAuthenticated := isAuthenticated st;
     interval := interval st; pending := pending st; api := api st |}.

Definition withAuth (b : bool) (st : State) : State :=
  {| executions := executions st; loading := loading st; error := error st;
     filter := filter st; expanded := expanded st;
     autoRefresh := autoRefresh st; isAuthenticated := b;
     interval := interval st; pending := pending st; api := api st |}.

Definition withInterval (h : option (Interval Closure)) (st : State) : State :=
  {| executions := executions st; loading := loading st; error := error st;
     filter := filter st; expanded := expanded st;
     autoRefresh := autoRefresh st; isAuthenticated := isAuthenticated st;
     interval := h; pending := pending st; api := api st |}.

(** The query of [api.getExecutions]. *)
Definition params (c : Closure) : Api.ExecutionsParams :=
  {| Api.status :=
       if negb (String.eqb (captured_filter c) "all")
       then Some (captured_filter c) else None;
     Api.limit := if captured_expanded c then 50 else 10 |}.

(** [await api.getExecutions(...)]: the request goes out and the caller,
    with everything it captured, is suspended on the promise. *)
Definition await_getExecutions (c : Closure) (now : Z) (st : State) : State :=
  {| executions := executions st; loading := loading st; error := error st;
     filter := filter st; expanded := expanded st;
     autoRefresh := autoRefresh st; isAuthenticated := isAuthenticated st;
     interval := interval st; pending := pending st ++ [c];
     api := api st ++ [(now, Api.getExecutions (params c))] |}.

Definition resumed (i : nat) (st : State) : State :=
  {| executions := executions st; loading := loading st; error := error st;
     filter := filter st; expanded := expanded st;
     autoRefresh := autoRefresh st; isAuthenticated := isAuthenticated st;
     interval := interval st; pending := delete i (pending st);
     api := api st |}.

(** [fetchExecutions], up to its [await]. *)
Definition fetchExecutions (c : Closure) (now : Z) (st : State) : State :=
  if negb (captured_isAuthenticated c) then st
  else await_getExecutions c now (setLoading true st).

(** The records built after the [await]; [now] is [Date.now()], read once
    for the whole array. *)
Definition mockExecutions (now : Z) : list ExecutionItem.t :=
  [ {| ExecutionItem.id := "1"; ExecutionItem.workflowId := "wf-1";
       ExecutionItem.workflowName := "NDVI Alert Pipeline";
       ExecutionItem.status := ExecutionItem.success;
       ExecutionItem.startedAt := Js.toISOString (now - 5 * 60 * 1000);
       ExecutionItem.duration := Some 3200;
       ExecutionItem.mode := "trigger" |};
    {| ExecutionItem.id := "2"; ExecutionItem.workflowId := "wf-2";
       ExecutionItem.workflowName := "Production Prediction";
       ExecutionItem.status := ExecutionItem.running;
       ExecutionItem.startedAt := Js.toISOString (now - 2 * 60 * 1000);
       ExecutionItem.duration := None;
       ExecutionItem.mode := "webhook" |};
    {| ExecutionItem.id := "3"; ExecutionItem.workflowId := "wf-3";
       ExecutionItem.workflowName := "Pest Detection";
       ExecutionItem.status := ExecutionItem.success;
       ExecutionItem.startedAt := Js.toISOString (now - 15 * 60 * 1000);
       ExecutionItem.duration := Some 8500;
       ExecutionItem.mode := "cron" |};
    {| ExecutionItem.id := "4"; ExecutionItem.workflowId := "wf-1";
       ExecutionItem.workflowName := "NDVI Alert Pipeline";
       ExecutionItem.status := ExecutionItem.error;
       ExecutionItem.startedAt := Js.toISOString (now - 30 * 60 * 1000);
       ExecutionItem.duration := Some 1200;
       ExecutionItem.mode := "trigger" |};
    {| ExecutionItem.id := "5"; ExecutionItem.workflowId := "wf-4";
       ExecutionItem.workflowName := "Risk Notifications";
       ExecutionItem.status := ExecutionItem.success;
       ExecutionItem.startedAt := Js.toISOString (now - 60 * 60 * 1000);
       ExecutionItem.duration := Some 4500;
       ExecutionItem.mode := "cron" |} ].

(** [filter === 'all' || e.status === filter]. *)
Definition matches (flt : string) (e : ExecutionItem.t) : bool :=
  String.eqb flt "all" ||
  String.eqb (ExecutionItem.literal (ExecutionItem.status e)) flt.

(** [fetchExecutions], from its [await] on; [response] is bound and never
    read. *)
Definition fetchExecutions_settled (c : Closure)
    (r : Js.Settled Api.ExecutionsResponse) (now : Z) (st : State) : State :=
  let st' :=
    match r with
    | Js.Fulfilled response =>
        setError None
          (setExecutions
             (List.filter (matches (captured_filter c)) (mockExecutions now))
             st)
    | Js.Rejected message =>
        setError (Some (Js.orElse message "Failed to load executions")) st
    end in
  setLoading false st'.

(** The effect on [[isAuthenticated, filter, expanded, autoRefresh]]. *)
Definition refreshInterval : Z := 10000.

Definition capture (st : State) : Closure :=
  {| captured_isAuthenticated := isAuthenticated st;
     captured_filter := filter st;
     captured_expanded := expanded st |}.

Definition setInterval (c : Closure) (now : Z) (st : State) : State :=
  withInterval (Some {| due := now + refreshInterval; callback := c |}) st.

Definition clearInterval (st : State) : State := withInterval None st.

Definition effect (now : Z) (st : State) : State :=
  let c := capture st in
  let st' := fetchExecutions c now st in
  if autoRefresh st then setInterval c now st' else st'.

Definition mount (auth : bool) (now : Z) : State :=
  effect now (initial auth).

(** A render after which some dependency differs: the previous effect is
    cleaned up, then the effect runs again. *)
Definition rerun (now : Z) (st : State) : State :=
  effect now (clearInterval st).

Definition authChanged (auth : bool) (now : Z) (st : State) : State :=
  if Bool.eqb auth (isAuthenticated st) then st
  else rerun now (withAuth auth st).

(** *** What is rendered *)

Inductive Body :=
| Spinner
| NoExecutions
| Timeline (cards : list ExecutionItem.t).

Record Panel := {
  runningCount : nat;
  errorCount : nat;
  banner : option string;
  body : Body
}.

Inductive View :=
| LoginRequired
| Monitor (p : Panel).

Definition hasStatus (s : string) (e : ExecutionItem.t) : bool :=
  String.eqb (ExecutionItem.literal (ExecutionItem.status e)) s.

Definition render (st : State) : View :=
  if negb (isAuthenticated st) then LoginRequired
  else Monitor
    {| runningCount := length (List.filter (hasStatus "running") (executions st));
       errorCount := length (List.filter (hasStatus "error") (executions st));
       banner := if Js.truthy (error st) then error st else None;
       body :=
         match executions st with
         | [] => if loading st then Spinner else NoExecutions
         | _ :: _ => Timeline (executions st)
         end |}.

(** *** Events *)

Inductive Event :=
| FilterSelected (value : string)
| AutoRefreshClicked
| ExpandClicked
| IntervalFired
| FetchSettled (i : nat) (r : Js.Settled Api.ExecutionsResponse).

(** The controls exist only in the rendered monitor.  A state setter
    called with the value the cell already holds causes no render. *)
Definition step (now : Z) (st : State) (ev : Event) : option State :=
  match ev with
  | FilterSelected value =>
      if isAuthenticated st then
        Some (if String.eqb value (filter st) then st
              else rerun now (setFilter value st))
      else None
  | AutoRefreshClicked =>
      if isAuthenticated st
      then Some (rerun now (setAutoRefresh (negb (autoRefresh st)) st))
      else None
  | ExpandClicked =>
      if isAuthenticated st
      then Some (rerun now (setExpanded (negb (expanded st)) st))
      else None
  | IntervalFired =>
      match interval st with
      | Some h =>
          if due h =? now
          then Some (setInterval (callback h) now
                       (fetchExecutions (callback h) now st))
          else None
      | None => None
      end
  | FetchSettled i r =>
      match pending st !! i with
      | Some c => Some (fetchExecutions_settled c r now (resumed i st))
      | None => None
      end
  end.

End ExecutionMonitor.

(** ** WorkflowStatusPanel (context-panel slot): the workflow actions *)

Module WorkflowStatusPanel.

Module LastExecution.
Inductive Status := success | error | running.
Record t := { status : Status; date : string }.
End LastExecution.

Record WorkflowSummary := {
  id : string;
  name : string;
  active : bool;
  lastExecution : option LastExecution.t;
  relatedToEntity : bool
}.

(** A suspended [async] function of the panel, with what it captured:
    [fetchWorkflows] or [executeWorkflow] (at its first or at its second
    [await]). *)
Inductive Awaiting :=
| FetchingWorkflows (entityType : option string)
| Executing (entityType : option string)
| Refreshing (entityType : option string).

Record State := {
  workflows : list WorkflowSummary;
  loading : bool;
  error : option string;
  isAuthenticated : bool;              (* useAuth() *)
  tenantAdmin : bool;                  (* hasRole('TenantAdmin') *)
  selectedEntityId : option string;    (* useViewer() *)
  selectedEntityType : option string;  (* useViewer() *)
  pending : list Awaiting;
  api : Api.Log
}.

Definition initial (auth admin : bool) (entityId entityType : option string)
    : State :=
  {| workflows := []; loading := false; error := None;
     isAuthenticated := auth; tenantAdmin := admin;
     selectedEntityId := entityId; selectedEntityType := entityType;
     pending := []; api := [] |}.

Definition setWorkflows (v : list WorkflowSummary) (st : State) : State :=
  {| workflows := v; loading := loading st; error := error st;
     isAuthenticated := isAuthenticated st; tenantAdmin := tenantAdmin st;
     selectedEntityId := selectedEntityId st;
     selectedEntityType := selectedEntityType st;
     pending := pending st; api := api st |}.

Definition setLoading (b : bool) (st : State) : State :=
  {| workflows := workflows st; loading := b; error := error st;
     isAuthenticated := isAuthenticated st; tenantAdmin := tenantAdmin st;
     selectedEntityId := selectedEntityId st;
     selectedEntityType := selectedEntityType st;
     pending := pending st; api := api st |}.

Definition setError (e : option string) (st : State) : State :=
  {| workflows := workflows st; loading := loading st; error := e;
     isAuthenticated := isAuthenticated st; tenantAdmin := tenantAdmin st;
     selectedEntityId := selectedEntityId st;
     selectedEntityType := selectedEntityType st;
     pending := pending st; api := api st |}.

Definition withHooks (auth : bool) (entityId entityType : option string)
    (st : State) : State :=
  {| workflows := workflows st; loading := loading st; error := error st;
     isAuthenticated := auth; tenantAdmin := tenantAdmin st;
     selectedEntityId := entityId; selectedEntityType := entityType;
     pending := pending st; api := api st |}.

(** [await api.<call>]: the request goes out and the caller is suspended. *)
Definition await (k : Awaiting) (call : Api.Call) (now : Z) (st : State)
    : State :=
  {| workflows := workflows st; loading := loading st; error := error st;
     isAuthenticated := isAuthenticated st; tenantAdmin := tenantAdmin st;
     selectedEntityId := selectedEntityId st;
     selectedEntityType := selectedEntityType st;
     pending := pending st ++ [k]; api := api st ++ [(now, call)] |}.

(** A call whose promise nobody awaits. *)
Definition send (call : Api.Call) (now : Z) (st : State) : State :=
  {| workflows := workflows st; loading := loading st; error := error st;
     isAuthenticated := isAuthenticated st; tenantAdmin := tenantAdmin st;
     selectedEntityId := selectedEntityId st;
     selectedEntityType := selectedEntityType st;
     pending := pending st; api := api st ++ [(now, call)] |}.

Definition resumed (i : nat) (st : State) : State :=
  {| workflows := workflows st; loading := loading st; error := error st;
     isAuthenticated := isAuthenticated st; tenantAdmin := tenantAdmin st;
     selectedEntityId := selectedEntityId st;
     selectedEntityType := selectedEntityType st;
     pending := delete i (pending st); api := api st |}.

(** [w.name.toLowerCase().includes(selectedEntityType?.toLowerCase() || '')] *)
Definition summary (entityType : option string) (w : N8nWorkflow.t)
    : WorkflowSummary :=
  {| id := N8nWorkflow.id w; name := N8nWorkflow.name w;
     active := N8nWorkflow.active w; lastExecution := None;
     relatedToEntity :=
       Js.includes (Js.toLowerCase (N8nWorkflow.name w))
         (Js.orElse (option_map Js.toLowerCase entityType) "") |}.

(** The effect on [[isAuthenticated, selectedEntityId, selectedEntityType]]:
    [fetchWorkflows], up to its [await]. *)
Definition effect (now : Z) (st : State) : State :=
  if negb (isAuthenticated st) then st
  else await (FetchingWorkflows (selectedEntityType st)) Api.getWorkflows now
         (setError None (setLoading true st)).

Definition fetchWorkflows_settled (entityType : option string)
    (r : Js.Settled Api.WorkflowsResponse) (st : State) : State :=
  let st' :=
    match r with
    | Js.Fulfilled response =>
        setWorkflows (map (summary entityType) (Api.workflows response)) st
    | Js.Rejected message =>
        setError (Some (Js.orElse message "Failed to load workflows")) st
    end in
  setLoading false st'.

(** [executeWorkflow], up to its first [await]. *)
Definition executeWorkflow (workflowId : string) (now : Z) (st : State)
    : State :=
  match selectedEntityId st with
  | Some entityId =>
      if String.eqb entityId "" then st
      else await (Executing (selectedEntityType st))
             (Api.executeWorkflow workflowId
                {| Api.entityId := entityId;
                   Api.entityType := selectedEntityType st |})
             now st
  | None => st
  end.

(** [executeWorkflow], between its two [await]s; the value the first
    promise was fulfilled with is dropped. *)
Definition executeWorkflow_executed (entityType : option string)
    (r : Js.Settled N8nExecution.t) (now : Z) (st : State) : State :=
  match r with
  | Js.Fulfilled _ =>
      await (Refreshing entityType) Api.getWorkflows now (setLoading true st)
  | Js.Rejected message =>
      setError (Some (Js.orElse message "Failed to execute workflow")) st
  end.

(** [executeWorkflow], from its second [await] on. *)
Definition executeWorkflow_refreshed (entityType : option string)
    (r : Js.Settled Api.WorkflowsResponse) (st : State) : State :=
  match r with
  | Js.Fulfilled response =>
      setLoading false
        (setWorkflows (map (summary entityType) (Api.workflows response)) st)
  | Js.Rejected message =>
      setError (Some (Js.orElse message "Failed to execute workflow")) st
  end.

(** The two quick actions: the click handler only makes the call. *)
Definition msPerMonth : Z := 30 * 24 * 60 * 60 * 1000.

Definition requestAnalysis (now : Z) (st : State) : State :=
  send (Api.requestAnalysis
          {| SentinelAnalysisRequest.parcelId :=
               default "" (selectedEntityId st);
             SentinelAnalysisRequest.startDate :=
               Js.toISOString (now - msPerMonth);
             SentinelAnalysisRequest.endDate := Js.toISOString now;
             SentinelAnalysisRequest.indices := [SentinelAnalysisRequest.NDVI];
             SentinelAnalysisRequest.cloudCoverMax := None |})
    now st.

Definition requestPrediction (now : Z) (st : State) : State :=
  send (Api.requestPrediction
          {| PredictionRequest.type := PredictionRequest.production;
             PredictionRequest.entityId := default "" (selectedEntityId st);
             PredictionRequest.entityType := selectedEntityType st |})
    now st.

Definition mount (auth admin : bool) (entityId entityType : option string)
    (now : Z) : State :=
  effect now (initial auth admin entityId entityType).

(** The hooks return new values; the effect runs again when one of its
    dependencies differs. *)
Definition hooksChanged (auth : bool) (entityId entityType : option string)
    (now : Z) (st : State) : State :=
  if Bool.eqb auth (isAuthenticated st) &&
     Js.sameText entityId (selectedEntityId st) &&
     Js.sameText entityType (selectedEntityType st)
  then st
  else effect now (withHooks auth entityId entityType st).

(** *** What is rendered *)

Definition relatedWorkflows (st : State) : list WorkflowSummary :=
  List.filter (fun w => relatedToEntity w || active w) (workflows st).

Definition panelShown (st : State) : bool :=
  isAuthenticated st && Js.truthy (selectedEntityId st).

(** The workflows that are listed with an execute button. *)
Definition executable (st : State) : list WorkflowSummary :=
  if panelShown st && negb (loading st) && tenantAdmin st
  then List.filter active (firstn 5 (relatedWorkflows st))
  else [].

Definition quickActionsShown (st : State) : bool :=
  panelShown st && tenantAdmin st.

Inductive View :=
| LoginRequired
| SelectEntity
| Panel (banner : option string) (spinner : bool)
    (listed : list WorkflowSummary) (quickActions : bool).

Definition render (st : State) : View :=
  if negb (isAuthenticated st) then LoginRequired
  else if negb (Js.truthy (selectedEntityId st)) then SelectEntity
  else Panel (if Js.truthy (error st) then error st else None)
         (loading st)
         (if loading st then [] else firstn 5 (relatedWorkflows st))
         (tenantAdmin st).

(** *** Events *)

Inductive Response :=
| Workflows (r : Js.Settled Api.WorkflowsResponse)
| Executed (r : Js.Settled N8nExecution.t).

Inductive Event :=
| ExecuteClicked (workflowId : string)
| AnalysisClicked
| PredictClicked
| Settled (i : nat) (r : Response).

Definition step (now : Z) (st : State) (ev : Event) : option State :=
  match ev with
  | ExecuteClicked workflowId =>
      if existsb (fun w => String.eqb (id w) workflowId) (executable st)
      then Some (executeWorkflow workflowId now st)
      else None
  | AnalysisClicked =>
      if quickActionsShown st then Some (requestAnalysis now st) else None
  | PredictClicked =>
      if quickActionsShown st then Some (requestPrediction now st) else None
  | Settled i r =>
      match pending st !! i, r with
      | Some (FetchingWorkflows ty), Workflows r' =>
          Some (fetchWorkflows_settled ty r' (resumed i st))
      | Some (Executing ty), Executed r' =>
          Some (executeWorkflow_executed ty r' now (resumed i st))
      | Some (Refreshing ty), Workflows r' =>
          Some (executeWorkflow_refreshed ty r' (resumed i st))
      | _, _ => None
      end
  end.

End WorkflowStatusPanel.

(** ** The three slots mounted side by side (slots/index.ts)

    The slots share nothing but the clock and the values of the host's
    hooks.  Time passes between events; an interval that is due fires
    before time passes further. *)

Module Hub.

Record World := {
  clock : Z;
  health : IntegrationStatus.State;
  feed : ExecutionMonitor.State;
  panel : WorkflowStatusPanel.State
}.

Inductive Event :=
| Wait (dt : Z)
| AuthChanged (isAuthenticated : bool)
| EntitySelected (entityId entityType : option string)
| Health (e : IntegrationStatus.Event)
| Feed (e : ExecutionMonitor.Event)
| Panel (e : WorkflowStatusPanel.Event).

Definition mount (reg : list IntegrationStatus.Integration)
    (auth admin : bool) (entityId entityType : option string) (now : Z)
    : World :=
  {| clock := now;
     health := IntegrationStatus.mount reg auth now;
     feed := ExecutionMonitor.mount auth now;
     panel := WorkflowStatusPanel.mount auth admin entityId entityType now |}.

Definition notDueBefore {C : Type} (t : Z) (h : option (Interval C)) : bool :=
  match h with
  | Some i => t <=? due i
  | None => true
  end.

Definition step (w : World) (ev : Event) : option World :=
  match ev with
  | Wait dt =>
      if (0 <=? dt) &&
         notDueBefore (clock w + dt) (IntegrationStatus.interval (health w)) &&
         notDueBefore (clock w + dt) (ExecutionMonitor.interval (feed w))
      then Some {| clock := clock w + dt; health := health w;
                   feed := feed w; panel := panel w |}
      else None
  | AuthChanged auth =>
      Some {| clock := clock w;
              health := IntegrationStatus.authChanged auth (clock w) (health w);
              feed := ExecutionMonitor.authChanged auth (clock w) (feed w);
              panel :=
                WorkflowStatusPanel.hooksChanged auth
                  (WorkflowStatusPanel.selectedEntityId (panel w))
                  (WorkflowStatusPanel.selectedEntityType (panel w))
                  (clock w) (panel w) |}
  | EntitySelected entityId entityType =>
      Some {| clock := clock w; health := health w; feed := feed w;
              panel :=
                WorkflowStatusPanel.hooksChanged
                  (WorkflowStatusPanel.isAuthenticated (panel w))
                  entityId entityType (clock w) (panel w) |}
  | Health e =>
      match IntegrationStatus.step (clock w) (health w) e with
      | Some h => Some {| clock := clock w; health := h;
                          feed := feed w; panel := panel w |}
      | None => None
      end
  | Feed e =>
      match ExecutionMonitor.step (clock w) (feed w) e with
      | Some f => Some {| clock := clock w; health := health w;
                          feed := f; panel := panel w |}
      | None => None
      end
  | Panel e =>
      match WorkflowStatusPanel.step (clock w) (panel w) e with
      | Some p => Some {| clock := clock w; health := health w;
                          feed := feed w; panel := p |}
      | None => None
      end
  end.

Fixpoint run (w : World) (evs : list Event) : option World :=
  match evs with
  | [] => Some w
  | ev :: evs' =>
      match step w ev with
      | Some w' => run w' evs'
      | None => None
      end
  end.





(** The requests a component has sent at or after time [t]. *)
Definition sentSince (t : Z) (log : Api.Log) : list (Z * Api.Call) :=
  List.filter (fun r => t <=? fst r) log.

End Hub.

(** ** Vocabulary of the properties *)

Module Spec.

(** The response of the example: [{id:"n8n",status:"healthy",latency:42}],
    whatever its other fields hold. *)
Definition n8nHealthy (name lastCheck : string) (message : option string)
    : IntegrationHealth.t :=
  {| IntegrationHealth.id := "n8n"; IntegrationHealth.name := name;
     IntegrationHealth.status := IntegrationHealth.healthy;
     IntegrationHealth.lastCheck := lastCheck;
     IntegrationHealth.latency := Some 42;
     IntegrationHealth.message := message |}.


(** The callback held by a component's interval is the function of the
    component's latest render. *)
Definition healthCallbackFresh (st : IntegrationStatus.State) : Prop :=
  match IntegrationStatus.interval st with
  | Some h => callback h = IntegrationStatus.capture st
  | None => True
  end.

Definition feedCallbackFresh (st : ExecutionMonitor.State) : Prop :=
  match ExecutionMonitor.interval st with
  | Some h => callback h = ExecutionMonitor.capture st
  | None => True
  end.

(** An interval is due at most one period from now, and not in the past. *)
Definition dueWithin {C : Type} (now period : Z) (h : option (Interval C))
    : Prop :=
  match h with
  | Some i => now <= due i <= now + period
  | None => True
  end.

(** What holds in every state of the mounted slots. *)
Record coherent (w : Hub.World) : Prop := {
  auth_feed :
    ExecutionMonitor.isAuthenticated (Hub.feed w) =
    IntegrationStatus.isAuthenticated (Hub.health w);
  auth_panel :
    WorkflowStatusPanel.isAuthenticated (Hub.panel w) =
    IntegrationStatus.isAuthenticated (Hub.health w);
  scheduled_health : IntegrationStatus.interval (Hub.health w) <> None;
  fresh_health : healthCallbackFresh (Hub.health w);
  fresh_feed : feedCallbackFresh (Hub.feed w);
  due_health :
    dueWithin (Hub.clock w) IntegrationStatus.pollInterval
      (IntegrationStatus.interval (Hub.health w));
  due_feed :
    dueWithin (Hub.clock w) ExecutionMonitor.refreshInterval
      (ExecutionMonitor.interval (Hub.feed w))
}.

(** The slots as the module mounts them. *)
Definition mounted (auth admin : bool) (entityId entityType : option string)
    (now : Z) : Hub.World :=
  Hub.mount IntegrationStatus.registry auth admin entityId entityType now.

(** *** Statements of the specification that the components do not meet *)

(** A response to a fetch requested under a filter that is no longer the
    current one is never applied to the window. *)
Definition staleResponsesDiscarded : Prop :=
  forall auth admin entityId entityType t0 evs w i c response w',
    Hub.run (mounted auth admin entityId entityType t0) evs = Some w ->
    ExecutionMonitor.pending (Hub.feed w) !! i = Some c ->
    ExecutionMonitor.captured_filter c <> ExecutionMonitor.filter (Hub.feed w) ->
    Hub.step w (Hub.Feed (ExecutionMonitor.FetchSettled i (Js.Fulfilled response)))
      = Some w' ->
    ExecutionMonitor.executions (Hub.feed w') =
    ExecutionMonitor.executions (Hub.feed w).

(** A manual refresh moves the next automatic tick to one full interval
    after the refresh. *)
Definition manualRefreshResetsSchedule : Prop :=
  forall auth admin entityId entityType t0 evs w w',
    Hub.run (mounted auth admin entityId entityType t0) evs = Some w ->
    Hub.step w (Hub.Health IntegrationStatus.RefreshClicked) = Some w' ->
    option_map due (IntegrationStatus.interval (Hub.health w')) =
    Some (Hub.clock w + IntegrationStatus.pollInterval).

(** A successful workflow execution makes the execution feed fetch. *)
Definition dispatchRefreshesFeed : Prop :=
  forall auth admin entityId entityType t0 evs w i ack w',
    Hub.run (mounted auth admin entityId entityType t0) evs = Some w ->
    Hub.step w (Hub.Panel (WorkflowStatusPanel.Settled i
                  (WorkflowStatusPanel.Executed (Js.Fulfilled ack)))) = Some w' ->
    (length (ExecutionMonitor.api (Hub.feed w)) <
     length (ExecutionMonitor.api (Hub.feed w')))%nat.

(** A failed fetch sets the error state to the failure's message. *)
Definition errorIsFailureMessage : Prop :=
  forall now st i message st',
    ExecutionMonitor.step now st
      (ExecutionMonitor.FetchSettled i (Js.Rejected message)) = Some st' ->
    ExecutionMonitor.error st' = message.

(** After a successful fetch the window is a function of the filter. *)
Definition windowFunctionOfFilterAlone : Prop :=
  forall c1 c2 r1 r2 now1 now2 st1 st2,
    ExecutionMonitor.captured_filter c1 = ExecutionMonitor.captured_filter c2 ->
    ExecutionMonitor.captured_expanded c1 = ExecutionMonitor.captured_expanded c2 ->
    ExecutionMonitor.executions
      (ExecutionMonitor.fetchExecutions_settled c1 (Js.Fulfilled r1) now1 st1) =
    ExecutionMonitor.executions
      (ExecutionMonitor.fetchExecutions_settled c2 (Js.Fulfilled r2) now2 st2).

(** An execution record without the time it started at. *)
Definition timeless (e : ExecutionMonitor.ExecutionItem.t)
    : string * string * string * ExecutionMonitor.ExecutionItem.Status
      * option Z * string :=
  (ExecutionMonitor.ExecutionItem.id e,
   ExecutionMonitor.ExecutionItem.workflowId e,
   ExecutionMonitor.ExecutionItem.workflowName e,
   ExecutionMonitor.ExecutionItem.status e,
   ExecutionMonitor.ExecutionItem.duration e,
   ExecutionMonitor.ExecutionItem.mode e).

(** A backend execution with status [error]. *)
Definition failedExecution (id startedAt : string) : N8nExecution.t :=
  {| N8nExecution.id := id; N8nExecution.workflowId := "wf-9";
     N8nExecution.finished := true; N8nExecution.mode := N8nExecution.trigger;
     N8nExecution.startedAt := startedAt; N8nExecution.stoppedAt := None;
     N8nExecution.status := N8nExecution.error |}.

(** A workflow and the acknowledgment of its execution, for the runs
    below. *)
Definition irrigationWorkflow : N8nWorkflow.t :=
  {| N8nWorkflow.id := "wf-7"; N8nWorkflow.name := "AgriParcel irrigation";
     N8nWorkflow.active := true;
     N8nWorkflow.createdAt := "2024-01-01T00:00:00.000Z";
     N8nWorkflow.updatedAt := "2024-01-02T00:00:00.000Z";
     N8nWorkflow.tags := None |}.

Definition acknowledgment (id : string) : N8nExecution.t :=
  {| N8nExecution.id := id; N8nExecution.workflowId := "wf-7";
     N8nExecution.finished := false; N8nExecution.mode := N8nExecution.manual;
     N8nExecution.startedAt := "2024-01-03T00:00:00.000Z";
     N8nExecution.stoppedAt := None;
     N8nExecution.status := N8nExecution.running |}.

Definition noExecutions : Api.ExecutionsResponse := {| Api.executions := [] |}.

(** [a] is the time of an earlier instant than [b], for ISO strings of
    the same length. *)
Definition earlier (a b : string) : bool :=
  match String.compare a b with Lt => true | _ => false end.

(** The closure of a fetch requested under filter [flt], collapsed view. *)
Definition requestedUnder (flt : string) : ExecutionMonitor.Closure :=
  {| ExecutionMonitor.captured_isAuthenticated := true;
     ExecutionMonitor.captured_filter := flt;
     ExecutionMonitor.captured_expanded := false |}.

(** Runs used as instances.  The feed's auto-refresh is switched off
    where only the health interval should be running. *)
Definition twoPolls : list Hub.Event :=
  [ Hub.Health (IntegrationStatus.HealthSettled
      (Js.Fulfilled [n8nHealthy "n8n" "2024-01-01T00:00:00.000Z" None]));
    Hub.Feed ExecutionMonitor.AutoRefreshClicked;
    Hub.Wait 60000;
    Hub.Health IntegrationStatus.IntervalFired;
    Hub.Health (IntegrationStatus.HealthSettled (Js.Rejected (Some "timeout"))) ].

Definition almostOneInterval : list Hub.Event :=
  [ Hub.Health (IntegrationStatus.HealthSettled (Js.Fulfilled []));
    Hub.Feed ExecutionMonitor.AutoRefreshClicked;
    Hub.Wait 59999 ].

Definition executeClicked : list Hub.Event :=
  [ Hub.Panel (WorkflowStatusPanel.Settled 0%nat
      (WorkflowStatusPanel.Workflows (Js.Fulfilled
         {| Api.workflows := [irrigationWorkflow] |})));
    Hub.Panel (WorkflowStatusPanel.ExecuteClicked "wf-7") ].

End Spec.

(** ** ModuleApp (App.tsx): the standalone view *)

Module ModuleApp.

Inductive Icon := Workflow | Satellite | Brain | Bell | Database | Bot.

Module IntegrationStatus.
Inductive Status := connected | disconnected | error | pending.

Record t := {
  id : string;
  name : string;
  icon : Icon;
  status : Status;
  lastSync : option string;
  description : string
}.
End IntegrationStatus.

Module WorkflowItem.
Inductive Status := success | error | running | idle.

Record t := {
  id : string;
  name : string;
  active : bool;
  lastExecution : option string;
  status : Status;
  executions : Z
}.
End WorkflowItem.

#[global] Instance IntegrationStatus_eq_dec : EqDecision IntegrationStatus.Status.
Proof. solve_decision. Defined.

#[global] Instance WorkflowStatus_eq_dec : EqDecision WorkflowItem.Status.
Proof. solve_decision. Defined.

Record State := {
  integrations : list IntegrationStatus.t;
  workflows : list WorkflowItem.t;
  loading : bool;
  timeouts : list Z    (* due times of the setTimeout calls awaited *)
}.

(** The initial values of the cells; [now] is [new Date()]. *)
Definition initialIntegrations (now : Z) : list IntegrationStatus.t :=
  [ {| IntegrationStatus.id := "n8n"; IntegrationStatus.icon := Workflow; IntegrationStatus.name := "n8n Core";
       IntegrationStatus.status := IntegrationStatus.connected;
       IntegrationStatus.lastSync := Some (Js.toISOString now);
       IntegrationStatus.description := "Workflow automation engine" |};
    {| IntegrationStatus.id := "sentinel"; IntegrationStatus.icon := Satellite;
       IntegrationStatus.name := "Sentinel/NDVI";
       IntegrationStatus.status := IntegrationStatus.connected;
       IntegrationStatus.lastSync := Some (Js.toISOString now);
       IntegrationStatus.description :=
         "Satellite imagery and vegetation indices" |};
    {| IntegrationStatus.id := "intelligence"; IntegrationStatus.icon := Brain;
       IntegrationStatus.name := "Intelligence AI";
       IntegrationStatus.status := IntegrationStatus.connected;
       IntegrationStatus.lastSync := Some (Js.toISOString now);
       IntegrationStatus.description := "ML predictions and analysis" |};
    {| IntegrationStatus.id := "notifications"; IntegrationStatus.icon := Bell;
       IntegrationStatus.name := "Notifications";
       IntegrationStatus.status := IntegrationStatus.connected;
       IntegrationStatus.lastSync := Some (Js.toISOString now);
       IntegrationStatus.description :=
         "Multi-channel alerts (email, push, SMS)" |};
    {| IntegrationStatus.id := "odoo"; IntegrationStatus.icon := Database; IntegrationStatus.name := "Odoo ERP";
       IntegrationStatus.status := IntegrationStatus.pending;
       IntegrationStatus.lastSync := None;
       IntegrationStatus.description := "Farm management and inventory" |};
    {| IntegrationStatus.id := "ros2"; IntegrationStatus.icon := Bot;
       IntegrationStatus.name := "ROS2 Robotics";
       IntegrationStatus.status := IntegrationStatus.pending;
       IntegrationStatus.lastSync := None;
       IntegrationStatus.description := "Agricultural robot control" |} ].

Definition initialWorkflows (now : Z) : list WorkflowItem.t :=
  [ {| WorkflowItem.id := "1"; WorkflowItem.name := "NDVI Alert Pipeline";
       WorkflowItem.active := true;
       WorkflowItem.lastExecution := Some (Js.toISOString now);
       WorkflowItem.status := WorkflowItem.success;
       WorkflowItem.executions := 156 |};
    {| WorkflowItem.id := "2"; WorkflowItem.name := "Production Prediction";
       WorkflowItem.active := true;
       WorkflowItem.lastExecution := Some (Js.toISOString now);
       WorkflowItem.status := WorkflowItem.running;
       WorkflowItem.executions := 89 |};
    {| WorkflowItem.id := "3"; WorkflowItem.name := "Pest Detection Alerts";
       WorkflowItem.active := true;
       WorkflowItem.lastExecution := Some (Js.toISOString now);
       WorkflowItem.status := WorkflowItem.success;
       WorkflowItem.executions := 234 |};
    {| WorkflowItem.id := "4"; WorkflowItem.name := "Odoo Sync - Harvests";
       WorkflowItem.active := false;
       WorkflowItem.lastExecution := None;
       WorkflowItem.status := WorkflowItem.idle;
       WorkflowItem.executions := 0 |};
    {| WorkflowItem.id := "5"; WorkflowItem.name := "Robot Mission Scheduler";
       WorkflowItem.active := false;
       WorkflowItem.lastExecution := None;
       WorkflowItem.status := WorkflowItem.idle;
       WorkflowItem.executions := 0 |} ].

Definition initial (now : Z) : State :=
  {| integrations := initialIntegrations now;
     workflows := initialWorkflows now;
     loading := false; timeouts := [] |}.

Definition setWorkflows (f : list WorkflowItem.t -> list WorkflowItem.t)
    (st : State) : State :=
  {| integrations := integrations st; workflows := f (workflows st);
     loading := loading st; timeouts := timeouts st |}.

Definition setLoading (b : bool) (st : State) : State :=
  {| integrations := integrations st; workflows := workflows st;
     loading := b; timeouts := timeouts st |}.

(** [w.id === id ? { ...w, active: !w.active } : w] *)
Definition toggled (id : string) (w : WorkflowItem.t) : WorkflowItem.t :=
  if String.eqb (WorkflowItem.id w) id
  then {| WorkflowItem.id := WorkflowItem.id w;
          WorkflowItem.name := WorkflowItem.name w;
          WorkflowItem.active := negb (WorkflowItem.active w);
          WorkflowItem.lastExecution := WorkflowItem.lastExecution w;
          WorkflowItem.status := WorkflowItem.status w;
          WorkflowItem.executions := WorkflowItem.executions w |}
  else w.

Definition toggleWorkflow (id : string) (st : State) : State :=
  setWorkflows (map (toggled id)) st.

(** [refreshStatus], up to its [await]: a one-second timeout is set. *)
Definition refreshStatus (now : Z) (st : State) : State :=
  {| integrations := integrations st; workflows := workflows st;
     loading := true; timeouts := timeouts st ++ [now + 1000] |}.

(** [refreshStatus], from its [await] on. *)
Definition refreshStatus_resumed (i : nat) (st : State) : State :=
  {| integrations := integrations st; workflows := workflows st;
     loading := false; timeouts := delete i (timeouts st) |}.

(** *** The four figures of the stats cards *)

Definition activeIntegrations (st : State) : nat :=
  length (filter (fun i => IntegrationStatus.status i = IntegrationStatus.connected)
            (integrations st)).

Definition activeWorkflows (st : State) : nat :=
  length (List.filter WorkflowItem.active (workflows st)).

(** [workflows.reduce((acc, w) => acc + w.executions, 0)] *)
Definition totalExecutions (st : State) : Z :=
  fold_left (fun acc w => acc + WorkflowItem.executions w) (workflows st) 0.

Definition successfulToday (st : State) : nat :=
  length (filter (fun w => WorkflowItem.status w = WorkflowItem.success)
            (workflows st)).

(** *** Events *)

Inductive Event :=
| Wait (dt : Z)
| ToggleClicked (id : string)
| RefreshClicked
| TimeoutFired (i : nat).

(** The refresh button is disabled while [loading]; a toggle button exists
    for every workflow shown.  A timeout fires when it is due, and time
    does not pass beyond a timeout that is due. *)
Definition step (s : Z * State) (ev : Event) : option (Z * State) :=
  let '(now, st) := s in
  match ev with
  | Wait dt =>
      if (0 <=? dt) && forallb (fun due => now + dt <=? due) (timeouts st)
      then Some (now + dt, st) else None
  | ToggleClicked id =>
      if existsb (fun w => String.eqb (WorkflowItem.id w) id) (workflows st)
      then Some (now, toggleWorkflow id st) else None
  | RefreshClicked =>
      if loading st then None else Some (now, refreshStatus now st)
  | TimeoutFired i =>
      match timeouts st !! i with
      | Some due =>
          if due =? now then Some (now, refreshStatus_resumed i st) else None
      | None => None
      end
  end.

Fixpoint run (s : Z * State) (evs : list Event) : option (Z * State) :=
  match evs with
  | [] => Some s
  | ev :: evs' =>
      match step s ev with
      | Some s' => run s' evs'
      | None => None
      end
  end.

End ModuleApp.

(** ** Invariants of the slots *)

Module Invariants.

(** The health slot: a spinner means a poll is awaited, nothing is awaited
    that was not sent, and only health requests are sent. *)
Definition healthTidy (st : IntegrationStatus.State) : Prop :=
  (IntegrationStatus.loading st = true ->
   (0 < IntegrationStatus.pending st)%nat)
  /\ (IntegrationStatus.pending st <= length (IntegrationStatus.api st))%nat
  /\ Forall (fun r => snd r = Api.getIntegrationsHealth)
       (IntegrationStatus.api st).

(** A query the feed may send: no [status] for the filter [all], and one
    of the two window sizes. *)
Definition wellFormedQuery (p : Api.ExecutionsParams) : Prop :=
  Api.status p <> Some "all" /\ (Api.limit p = 10 \/ Api.limit p = 50).

Definition feedTidy (st : ExecutionMonitor.State) : Prop :=
  (ExecutionMonitor.loading st = true -> ExecutionMonitor.pending st <> [])
  /\ Forall
       (fun c =>
          ExecutionMonitor.captured_isAuthenticated c = true /\
          exists t,
            In (t, Api.getExecutions (ExecutionMonitor.params c))
              (ExecutionMonitor.api st))
       (ExecutionMonitor.pending st)
  /\ Forall (fun r => exists p, snd r = Api.getExecutions p /\ wellFormedQuery p)
       (ExecutionMonitor.api st).

(** The feed has an interval exactly while auto-refresh is on. *)
Definition feedScheduled (st : ExecutionMonitor.State) : Prop :=
  ExecutionMonitor.interval st = None <-> ExecutionMonitor.autoRefresh st = false.

(** A workflow of the standalone view without its [active] flag. *)
Definition frozen (w : ModuleApp.WorkflowItem.t)
    : string * string * option string * ModuleApp.WorkflowItem.Status * Z :=
  (ModuleApp.WorkflowItem.id w, ModuleApp.WorkflowItem.name w,
   ModuleApp.WorkflowItem.lastExecution w, ModuleApp.WorkflowItem.status w,
   ModuleApp.WorkflowItem.executions w).

(** The standalone view: the spinner shows exactly while the one timeout
    of a refresh is awaited, the integrations are those of the first
    render, and so are the workflows but for their [active] flags. *)
Definition appTidy (t0 : Z) (s : Z * ModuleApp.State) : Prop :=
  (ModuleApp.loading (snd s) = true <-> ModuleApp.timeouts (snd s) <> [])
  /\ (length (ModuleApp.timeouts (snd s)) <= 1)%nat
  /\ Forall (fun due => fst s <= due <= fst s + 1000) (ModuleApp.timeouts (snd s))
  /\ ModuleApp.integrations (snd s) = ModuleApp.initialIntegrations t0
  /\ map frozen (ModuleApp.workflows (snd s)) =
     map frozen (ModuleApp.initialWorkflows t0).

End Invariants.

(** * Properties *)

(** ** Dates *)

Example toISOString_epoch : Js.toISOString 0 = "1970-01-01T00:00:00.000Z".
Proof. reflexivity. Qed.

Example toISOString_2023 :
  Js.toISOString 1700000000000 = "2023-11-14T22:13:20.000Z".
Proof. vm_compute. reflexivity. Qed.

Example toISOString_leap :
  Js.toISOString 951782400123 = "2000-02-29T00:00:00.123Z".
Proof. vm_compute. reflexivity. Qed.

Example toISOString_before_epoch :
  Js.toISOString (-1) = "1969-12-31T23:59:59.999Z".
Proof. vm_compute. reflexivity. Qed.

(** ** The health aggregator *)

Section HealthFacts.
Import IntegrationStatus.

Lemma lookup_map {A B : Type} (f : A -> B) (l : list A) (k : nat) :
  map f l !! k = option_map f (l !! k).
Proof.
  revert k; induction l as [|x l IH]; intros [|k]; simpl; auto.
Qed.

Lemma ids_merge healthData l :
  map id (map (merge healthData) l) = map id l.
Proof. rewrite map_map. apply map_ext. reflexivity. Qed.

Lemma ids_markUnknown l : map id (map markUnknown l) = map id l.
Proof. rewrite map_map. apply map_ext. reflexivity. Qed.

Lemma ids_checkHealth c now st :
  integrations (checkHealth c now st) = integrations st.
Proof. unfold checkHealth. destruct (negb _); reflexivity. Qed.

Lemma ids_settled r st :
  map id (integrations (checkHealth_settled r st)) = map id (integrations st).
Proof.
  destruct r; simpl; [apply ids_merge | apply ids_markUnknown].
Qed.

Lemma ids_authChanged auth now st :
  integrations (authChanged auth now st) = integrations st.
Proof.
  unfold authChanged. destruct (Bool.eqb _ _); [reflexivity|].
  unfold effect, setInterval. simpl. now rewrite ids_checkHealth.
Qed.

Lemma ids_step now st ev st' :
  step now st ev = Some st' ->
  map id (integrations st') = map id (integrations st).
Proof.
  destruct ev; simpl.
  - destruct (interval st) as [h|]; [|discriminate].
    destruct (due h =? now); [|discriminate].
    intros [= <-]. simpl. now rewrite ids_checkHealth.
  - destruct (refreshEnabled st); [|discriminate].
    intros [= <-]. now rewrite ids_checkHealth.
  - destruct (isAuthenticated st); [|discriminate].
    now intros [= <-].
  - destruct (pending st); [discriminate|].
    intros [= <-]. now rewrite ids_settled.
Qed.

Lemma ids_hub_step w ev w' :
  Hub.step w ev = Some w' ->
  map id (integrations (Hub.health w')) = map id (integrations (Hub.health w)).
Proof.
  destruct ev; simpl.
  - destruct (_ && _); [|discriminate]. now intros [= <-].
  - intros [= <-]. simpl. now rewrite ids_authChanged.
  - now intros [= <-].
  - destruct (step _ _ _) as [h|] eqn:E; [|discriminate].
    intros [= <-]. simpl. eapply ids_step; eassumption.
  - destruct (ExecutionMonitor.step _ _ _); [|discriminate].
    now intros [= <-].
  - destruct (WorkflowStatusPanel.step _ _ _); [|discriminate].
    now intros [= <-].
Qed.

Lemma ids_hub_run evs : forall w w',
  Hub.run w evs = Some w' ->
  map id (integrations (Hub.health w')) = map id (integrations (Hub.health w)).
Proof.
  induction evs as [|ev evs IH]; simpl; intros w w'.
  - now intros [= <-].
  - destruct (Hub.step w ev) as [w1|] eqn:E; [|discriminate].
    intros H. rewrite (IH _ _ H). eapply ids_hub_step; eassumption.
Qed.

Lemma ids_mount reg auth now :
  integrations (mount reg auth now) = reg.
Proof. unfold mount, effect. simpl. now rewrite ids_checkHealth. Qed.


End HealthFacts.

Section HealthClaims.
Import IntegrationStatus.

(** C2: the snapshot always holds exactly one entry per registered
    descriptor.  The component starts with its registry, every entry
    [unknown]; in every state reached by any sequence of events the
    snapshot lists the registry's ids, each once and in registry order;
    and whenever a poll settles (with a full response, a partial one, or a
    failure) the new snapshot again lists exactly the registry's ids, an
    entry found in the response carries the response's status and latency,
    an entry not found is [unknown] with no latency, and after a failed
    poll every entry is [unknown].  For the registry [{n8n, sentinel}] and
    the response [[{id:"n8n",status:"healthy",latency:42}]] the snapshot
    is [n8n: healthy/42, sentinel: unknown]. *)
Theorem C2_snapshot_has_every_descriptor
    (reg : list Integration) (auth admin : bool)
    (entityId entityType : option string) (t0 : Z)
    (evs : list Hub.Event) (w : Hub.World) :
  Hub.run (Hub.mount reg auth admin entityId entityType t0) evs = Some w ->
  integrations (Hub.health (Hub.mount reg auth admin entityId entityType t0))
    = reg
  /\ Forall (fun i => status i = IntegrationHealth.unknown) registry
  /\ map id (integrations (Hub.health w)) = map id reg
  /\ (forall r, (0 < pending (Hub.health w))%nat ->
        exists h',
          step (Hub.clock w) (Hub.health w) (HealthSettled r) = Some h' /\
          map id (integrations h') = map id reg /\
          forall k i', integrations h' !! k = Some i' ->
            match r with
            | Js.Fulfilled healthData =>
                match find (fun h => String.eqb (IntegrationHealth.id h) (id i'))
                        healthData with
                | Some h =>
                    status i' = IntegrationHealth.status h /\
                    latency i' = IntegrationHealth.latency h
                | None =>
                    status i' = IntegrationHealth.unknown /\ latency i' = None
                end
            | Js.Rejected _ => status i' = IntegrationHealth.unknown
            end)
  /\ (forall name lastCheck message,
        option_map
          (fun w' => map (fun i => (id i, status i, latency i))
                       (integrations (Hub.health w')))
          (Hub.run (Hub.mount (firstn 2 registry) true admin entityId entityType t0)
             [Hub.Health (HealthSettled
                (Js.Fulfilled [Spec.n8nHealthy name lastCheck message]))])
        = Some [ ("n8n", IntegrationHealth.healthy, Some 42);
                 ("sentinel", IntegrationHealth.unknown, None) ]).
Proof.
  intros Hrun.
  pose proof (ids_hub_run _ _ _ Hrun) as Hids.
  unfold Hub.mount in Hids at 1. cbn [Hub.health] in Hids.
  rewrite ids_mount in Hids.
  split; [apply ids_mount|].
  split; [repeat constructor|].
  split; [exact Hids|].
  split.
  - intros r Hpending. simpl.
    destruct (pending (Hub.health w)) as [|n] eqn:Hp; [lia|].
    eexists. split; [reflexivity|].
    split; [rewrite ids_settled; exact Hids|].
    intros k i' Hk.
    destruct r as [healthData|msg]; simpl in Hk;
      rewrite lookup_map in Hk;
      destruct (integrations (Hub.health w) !! k) as [i|]; try discriminate;
      injection Hk as <-; simpl; [|reflexivity].
    destruct (find _ healthData); split; reflexivity.
  - intros name lastCheck message. reflexivity.
Qed.


End HealthClaims.

Lemma C2_witness :
  exists w,
    Hub.run (Spec.mounted true false None None 0)
      Spec.twoPolls = Some w
    /\ map IntegrationStatus.id (IntegrationStatus.integrations (Hub.health w))
       = map IntegrationStatus.id IntegrationStatus.registry.
Proof.
  eexists. split; [vm_compute; reflexivity|].
  refine (proj1 (proj2 (proj2
            (C2_snapshot_has_every_descriptor IntegrationStatus.registry
               true false None None 0 Spec.twoPolls _ _)))).
  vm_compute; reflexivity.
Defined.


(** ** What holds in every reachable state *)

Section Coherence.

Ltac cases :=
  repeat match goal with
    | H : Some _ = Some _ |- _ => injection H as <-
    | H : None = Some _ |- _ => discriminate H
    | H : context [match ?x with _ => _ end] |- _ =>
        let E := fresh "E" in destruct x eqn:E; simpl in H
    | |- context [match ?x with _ => _ end] =>
        let E := fresh "E" in destruct x eqn:E; simpl
    end.

Lemma health_step_inv now st ev st' :
  IntegrationStatus.step now st ev = Some st' ->
  IntegrationStatus.isAuthenticated st' = IntegrationStatus.isAuthenticated st
  /\ (IntegrationStatus.interval st <> None ->
      IntegrationStatus.interval st' <> None)
  /\ (Spec.healthCallbackFresh st -> Spec.healthCallbackFresh st')
  /\ (Spec.dueWithin now IntegrationStatus.pollInterval
        (IntegrationStatus.interval st) ->
      Spec.dueWithin now IntegrationStatus.pollInterval
        (IntegrationStatus.interval st')).
Proof.
  unfold Spec.healthCallbackFresh, Spec.dueWithin, IntegrationStatus.pollInterval.
  destruct st as [ints ld ex au iv pd lg], ev as [| | |r]; simpl;
    unfold IntegrationStatus.refreshEnabled, IntegrationStatus.checkHealth,
      IntegrationStatus.capture; simpl; intros H; cases; simpl;
    unfold IntegrationStatus.pollInterval in *;
    repeat split; auto; try lia; try discriminate;
    try (destruct r; simpl; auto).
Qed.

Lemma health_authChanged_inv auth now st :
  IntegrationStatus.isAuthenticated (IntegrationStatus.authChanged auth now st)
    = auth
  /\ (IntegrationStatus.interval st <> None ->
      IntegrationStatus.interval (IntegrationStatus.authChanged auth now st)
        <> None)
  /\ (Spec.healthCallbackFresh st ->
      Spec.healthCallbackFresh (IntegrationStatus.authChanged auth now st))
  /\ (Spec.dueWithin now IntegrationStatus.pollInterval
        (IntegrationStatus.interval st) ->
      Spec.dueWithin now IntegrationStatus.pollInterval
        (IntegrationStatus.interval (IntegrationStatus.authChanged auth now st))).
Proof.
  unfold Spec.healthCallbackFresh, Spec.dueWithin, IntegrationStatus.pollInterval,
    IntegrationStatus.authChanged.
  destruct (Bool.eqb auth _) eqn:E.
  - apply Bool.eqb_prop in E. auto.
  - destruct st as [ints ld ex au iv pd lg].
    unfold IntegrationStatus.effect, IntegrationStatus.checkHealth; simpl.
    destruct auth; simpl; unfold IntegrationStatus.pollInterval;
      repeat split; auto; try lia; discriminate.
Qed.

Lemma feed_step_inv now st ev st' :
  ExecutionMonitor.step now st ev = Some st' ->
  ExecutionMonitor.isAuthenticated st' = ExecutionMonitor.isAuthenticated st
  /\ (Spec.feedCallbackFresh st -> Spec.feedCallbackFresh st')
  /\ (Spec.dueWithin now ExecutionMonitor.refreshInterval
        (ExecutionMonitor.interval st) ->
      Spec.dueWithin now ExecutionMonitor.refreshInterval
        (ExecutionMonitor.interval st')).
Proof.
  unfold Spec.feedCallbackFresh, Spec.dueWithin, ExecutionMonitor.refreshInterval.
  destruct st as [exs ld er fl ex ar au iv pd lg], ev as [v| | | |i r]; simpl;
    unfold ExecutionMonitor.rerun, ExecutionMonitor.effect,
      ExecutionMonitor.fetchExecutions, ExecutionMonitor.capture; simpl;
    intros H; cases; simpl; unfold ExecutionMonitor.refreshInterval in *;
    repeat split; auto; try lia; try (destruct r; simpl; auto).
Qed.

Lemma feed_authChanged_inv auth now st :
  ExecutionMonitor.isAuthenticated (ExecutionMonitor.authChanged auth now st)
    = auth
  /\ (Spec.feedCallbackFresh st ->
      Spec.feedCallbackFresh (ExecutionMonitor.authChanged auth now st))
  /\ (Spec.dueWithin now ExecutionMonitor.refreshInterval
        (ExecutionMonitor.interval st) ->
      Spec.dueWithin now ExecutionMonitor.refreshInterval
        (ExecutionMonitor.interval (ExecutionMonitor.authChanged auth now st))).
Proof.
  unfold Spec.feedCallbackFresh, Spec.dueWithin, ExecutionMonitor.refreshInterval,
    ExecutionMonitor.authChanged.
  destruct (Bool.eqb auth _) eqn:E.
  - apply Bool.eqb_prop in E. auto.
  - destruct st as [exs ld er fl ex ar au iv pd lg].
    unfold ExecutionMonitor.rerun, ExecutionMonitor.effect,
      ExecutionMonitor.fetchExecutions; simpl.
    destruct auth, ar; simpl; unfold ExecutionMonitor.refreshInterval;
      repeat split; auto; lia.
Qed.

Lemma panel_step_auth now st ev st' :
  WorkflowStatusPanel.step now st ev = Some st' ->
  WorkflowStatusPanel.isAuthenticated st' = WorkflowStatusPanel.isAuthenticated st.
Proof.
  destruct st as [ws ld er au ad eid ety pd lg], ev as [wf| | |i r]; simpl;
    unfold WorkflowStatusPanel.executeWorkflow; simpl; intros H; cases;
    try reflexivity;
    match goal with r : Js.Settled _ |- _ => destruct r; reflexivity end.
Qed.

Lemma panel_hooksChanged_auth auth entityId entityType now st :
  WorkflowStatusPanel.isAuthenticated
    (WorkflowStatusPanel.hooksChanged auth entityId entityType now st) = auth.
Proof.
  unfold WorkflowStatusPanel.hooksChanged.
  destruct (Bool.eqb auth _) eqn:E; simpl.
  - apply Bool.eqb_prop in E. destruct (_ && _); [auto|].
    unfold WorkflowStatusPanel.effect; simpl. now destruct auth.
  - unfold WorkflowStatusPanel.effect; simpl. now destruct auth.
Qed.

End Coherence.

Section Reachability.

Lemma coherent_mount reg auth admin entityId entityType now :
  Spec.coherent (Hub.mount reg auth admin entityId entityType now).
Proof.
  unfold Hub.mount, IntegrationStatus.mount, ExecutionMonitor.mount,
    WorkflowStatusPanel.mount, IntegrationStatus.effect,
    ExecutionMonitor.effect, WorkflowStatusPanel.effect,
    IntegrationStatus.checkHealth, ExecutionMonitor.fetchExecutions.
  destruct auth; constructor; simpl;
    unfold Spec.healthCallbackFresh, Spec.feedCallbackFresh, Spec.dueWithin,
      IntegrationStatus.pollInterval, ExecutionMonitor.refreshInterval;
    simpl; auto; try lia; discriminate.
Qed.

Lemma dueWithin_wait {C : Type} now dt period (h : option (Interval C)) :
  0 <= dt -> Hub.notDueBefore (now + dt) h = true ->
  Spec.dueWithin now period h -> Spec.dueWithin (now + dt) period h.
Proof.
  destruct h as [i|]; simpl; [|auto].
  intros Hdt Hdue Hin. apply Z.leb_le in Hdue. lia.
Qed.

Lemma coherent_step w ev w' :
  Hub.step w ev = Some w' -> Spec.coherent w -> Spec.coherent w'.
Proof.
  intros Hstep [Hf Hp Hsh Hfh Hff Hdh Hdf].
  destruct ev as [dt|auth|eid ety|e|e|e]; simpl in Hstep.
  - destruct (0 <=? dt) eqn:E0; [|discriminate].
    destruct (Hub.notDueBefore _ (IntegrationStatus.interval _)) eqn:E1;
      [|discriminate].
    destruct (Hub.notDueBefore _ (ExecutionMonitor.interval _)) eqn:E2;
      [|discriminate].
    injection Hstep as <-. apply Z.leb_le in E0.
    constructor; simpl; auto using dueWithin_wait.
  - injection Hstep as <-.
    destruct (health_authChanged_inv auth (Hub.clock w) (Hub.health w))
      as (A1 & A0 & A2 & A3).
    destruct (feed_authChanged_inv auth (Hub.clock w) (Hub.feed w))
      as (B1 & B2 & B3).
    constructor; simpl; auto; try congruence.
    rewrite panel_hooksChanged_auth. congruence.
  - injection Hstep as <-.
    constructor; simpl; auto.
    rewrite panel_hooksChanged_auth. exact Hp.
  - destruct (IntegrationStatus.step _ _ e) as [h|] eqn:E; [|discriminate].
    injection Hstep as <-.
    destruct (health_step_inv _ _ _ _ E) as (A1 & A0 & A2 & A3).
    constructor; simpl; auto; congruence.
  - destruct (ExecutionMonitor.step _ _ e) as [f|] eqn:E; [|discriminate].
    injection Hstep as <-.
    destruct (feed_step_inv _ _ _ _ E) as (B1 & B2 & B3).
    constructor; simpl; auto; congruence.
  - destruct (WorkflowStatusPanel.step _ _ e) as [p|] eqn:E; [|discriminate].
    injection Hstep as <-.
    pose proof (panel_step_auth _ _ _ _ E).
    constructor; simpl; auto; congruence.
Qed.

Lemma coherent_run evs : forall w w',
  Hub.run w evs = Some w' -> Spec.coherent w -> Spec.coherent w'.
Proof.
  induction evs as [|ev evs IH]; simpl; intros w w'.
  - now intros [= <-].
  - destruct (Hub.step w ev) as [w1|] eqn:E; [|discriminate].
    eauto using coherent_step.
Qed.

Lemma coherent_reachable reg auth admin entityId entityType t0 evs w :
  Hub.run (Hub.mount reg auth admin entityId entityType t0) evs = Some w ->
  Spec.coherent w.
Proof. intros H. eapply coherent_run; [exact H | apply coherent_mount]. Qed.


End Reachability.

(** ** Authentication gate *)

(** C10: while the user is not authenticated, an invocation of [checkHealth]
    or of [fetchExecutions] returns at once: the state it is given comes
    back as it was, so no request is sent and neither the snapshot nor the
    window changes.  This holds for the function of the current render and,
    in every reachable state, for the function an interval holds: when the
    interval fires, only its next due time moves.  In that state
    IntegrationStatus renders nothing and ExecutionMonitor renders the
    login notice. *)
Theorem C10_unauthenticated_invocations_do_nothing :
  (forall now st,
     IntegrationStatus.isAuthenticated st = false ->
     IntegrationStatus.checkHealth (IntegrationStatus.capture st) now st = st /\
     IntegrationStatus.render st = None)
  /\ (forall now st,
        ExecutionMonitor.isAuthenticated st = false ->
        ExecutionMonitor.fetchExecutions (ExecutionMonitor.capture st) now st = st /\
        ExecutionMonitor.render st = ExecutionMonitor.LoginRequired)
  /\ (forall reg auth admin entityId entityType t0 evs w,
        Hub.run (Hub.mount reg auth admin entityId entityType t0) evs = Some w ->
        IntegrationStatus.isAuthenticated (Hub.health w) = false ->
        ExecutionMonitor.isAuthenticated (Hub.feed w) = false /\
        (forall w',
           Hub.step w (Hub.Health IntegrationStatus.IntervalFired) = Some w' ->
           Hub.health w' =
             IntegrationStatus.setInterval
               (IntegrationStatus.capture (Hub.health w)) (Hub.clock w)
               (Hub.health w) /\
           IntegrationStatus.integrations (Hub.health w') =
             IntegrationStatus.integrations (Hub.health w) /\
           IntegrationStatus.api (Hub.health w') =
             IntegrationStatus.api (Hub.health w)) /\
        (forall w',
           Hub.step w (Hub.Feed ExecutionMonitor.IntervalFired) = Some w' ->
           Hub.feed w' =
             ExecutionMonitor.setInterval
               (ExecutionMonitor.capture (Hub.feed w)) (Hub.clock w)
               (Hub.feed w) /\
           ExecutionMonitor.executions (Hub.feed w') =
             ExecutionMonitor.executions (Hub.feed w) /\
           ExecutionMonitor.api (Hub.feed w') =
             ExecutionMonitor.api (Hub.feed w))).
Proof.
  split; [|split].
  - intros now st H.
    unfold IntegrationStatus.checkHealth, IntegrationStatus.render; simpl.
    now rewrite H.
  - intros now st H.
    unfold ExecutionMonitor.fetchExecutions, ExecutionMonitor.render; simpl.
    now rewrite H.
  - intros reg auth admin entityId entityType t0 evs w Hrun Hauth.
    destruct (coherent_reachable _ _ _ _ _ _ _ _ Hrun)
      as [Hf _ _ Hfh Hff _ _].
    rewrite Hauth in Hf.
    split; [exact Hf|]. split; intros w' Hstep; simpl in Hstep.
    + unfold Spec.healthCallbackFresh in Hfh.
      destruct (IntegrationStatus.interval (Hub.health w)) as [h|];
        [|discriminate].
      destruct (due h =? Hub.clock w); [|discriminate].
      injection Hstep as <-. simpl. rewrite Hfh.
      unfold IntegrationStatus.checkHealth; simpl. rewrite Hauth. simpl. auto.
    + unfold Spec.feedCallbackFresh in Hff.
      destruct (ExecutionMonitor.interval (Hub.feed w)) as [h|];
        [|discriminate].
      destruct (due h =? Hub.clock w); [|discriminate].
      injection Hstep as <-. simpl. rewrite Hff.
      unfold ExecutionMonitor.fetchExecutions; simpl. rewrite Hf. simpl. auto.
Qed.

Lemma C10_witness :
  IntegrationStatus.isAuthenticated
    (IntegrationStatus.initial IntegrationStatus.registry false) = false
  /\ IntegrationStatus.api
       (IntegrationStatus.checkHealth
          (IntegrationStatus.capture
             (IntegrationStatus.initial IntegrationStatus.registry false))
          0 (IntegrationStatus.initial IntegrationStatus.registry false)) = [].
Proof.
  split; [reflexivity|].
  rewrite (proj1 (proj1 C10_unauthenticated_invocations_do_nothing 0
                    (IntegrationStatus.initial IntegrationStatus.registry false)
                    eq_refl)).
  reflexivity.
Defined.

(** ** Schedules *)



(** C5 (as the component behaves): a click on the refresh button, which is
    enabled while the user is authenticated and no poll is loading, runs the
    poll at once: the health request goes out at the time of the click.  The
    interval is left as it was: the next automatic tick stays due at the time
    fixed when the interval was created or last fired, which lies anywhere
    from the time of the click to one full poll interval after it. *)
Theorem C5_manual_refresh_polls_now_and_keeps_the_schedule
    (reg : list IntegrationStatus.Integration) (auth admin : bool)
    (entityId entityType : option string) (t0 : Z)
    (evs : list Hub.Event) (w w' : Hub.World) :
  Hub.run (Hub.mount reg auth admin entityId entityType t0) evs = Some w ->
  Hub.step w (Hub.Health IntegrationStatus.RefreshClicked) = Some w' ->
  IntegrationStatus.api (Hub.health w') =
    IntegrationStatus.api (Hub.health w)
      ++ [(Hub.clock w, Api.getIntegrationsHealth)]
  /\ IntegrationStatus.loading (Hub.health w') = true
  /\ IntegrationStatus.pending (Hub.health w') =
       S (IntegrationStatus.pending (Hub.health w))
  /\ Hub.clock w' = Hub.clock w
  /\ IntegrationStatus.interval (Hub.health w') =
       IntegrationStatus.interval (Hub.health w)
  /\ exists h,
       IntegrationStatus.interval (Hub.health w') = Some h /\
       Hub.clock w <= due h <= Hub.clock w + IntegrationStatus.pollInterval.
Proof.
  intros Hrun Hstep.
  destruct (coherent_reachable _ _ _ _ _ _ _ _ Hrun)
    as [_ _ Hsched _ _ Hdue _].
  simpl in Hstep.
  unfold IntegrationStatus.refreshEnabled in Hstep.
  destruct (IntegrationStatus.isAuthenticated (Hub.health w)) eqn:Ha;
    [|discriminate].
  destruct (IntegrationStatus.loading (Hub.health w)) eqn:Hl; [discriminate|].
  injection Hstep as <-. simpl.
  unfold IntegrationStatus.checkHealth; simpl. rewrite Ha; simpl.
  repeat (split; [reflexivity|]).
  destruct (IntegrationStatus.interval (Hub.health w)) as [h|]; [|congruence].
  exists h. split; [reflexivity|exact Hdue].
Qed.

Lemma C5_witness :
  exists w w',
    Hub.run (Spec.mounted true false None None 0) Spec.almostOneInterval
      = Some w
    /\ Hub.step w (Hub.Health IntegrationStatus.RefreshClicked) = Some w'
    /\ IntegrationStatus.interval (Hub.health w') =
         IntegrationStatus.interval (Hub.health w).
Proof.
  eexists. eexists.
  split; [vm_compute; reflexivity|].
  split; [vm_compute; reflexivity|].
  refine (proj1 (proj2 (proj2 (proj2 (proj2
            (C5_manual_refresh_polls_now_and_keeps_the_schedule
               IntegrationStatus.registry true false None None 0
               Spec.almostOneInterval _ _ _ _))))));
    vm_compute; reflexivity.
Defined.

(** C5, as stated, fails: mounted at time 0, with the first poll answered
    (and the feed's auto-refresh switched off, so that only the health
    interval is running), a manual refresh at 59999 ms is followed by the automatic tick at
    60000 ms, one millisecond later, and both send a health request; the
    interval was not moved to 59999 + 60000. *)
Lemma C5_refresh_is_followed_by_a_tick_one_ms_later :
  (exists w,
     Hub.run (Spec.mounted true false None None 0)
       (Spec.almostOneInterval ++
        [Hub.Health IntegrationStatus.RefreshClicked;
         Hub.Wait 1;
         Hub.Health IntegrationStatus.IntervalFired]) = Some w
     /\ Hub.sentSince 59999 (IntegrationStatus.api (Hub.health w)) =
          [ (59999, Api.getIntegrationsHealth);
            (60000, Api.getIntegrationsHealth) ])
  /\ ~ Spec.manualRefreshResetsSchedule.
Proof.
  split.
  - eexists. split; vm_compute; reflexivity.
  - intros H.
    eassert (Hrun : Hub.run (Spec.mounted true false None None 0)
                      Spec.almostOneInterval = Some _)
      by (vm_compute; reflexivity).
    match type of Hrun with
      | _ = Some ?w0 =>
          eassert (Hstep : Hub.step w0
                             (Hub.Health IntegrationStatus.RefreshClicked)
                           = Some _)
            by (vm_compute; reflexivity)
      end.
    specialize (H _ _ _ _ _ _ _ _ Hrun Hstep).
    vm_compute in H. discriminate H.
Qed.

(** ** The execution feed *)

Section FeedClaims.
Import ExecutionMonitor.

Lemma truthy_orElse message fallback :
  fallback <> "" -> Js.truthy (Some (Js.orElse message fallback)) = true.
Proof.
  intros Hne. unfold Js.orElse, Js.truthy.
  destruct message as [m|].
  - destruct (String.eqb m "") eqn:E; [|now rewrite E].
    destruct (String.eqb_spec fallback ""); [contradiction|reflexivity].
  - destruct (String.eqb_spec fallback ""); [contradiction|reflexivity].
Qed.

Lemma filter_all p (l : list ExecutionItem.t) :
  Forall (fun e => p e = true) (List.filter p l).
Proof.
  apply Forall_forall. intros e He.
  apply list_elem_of_In in He. apply filter_In in He. tauto.
Qed.

(** C1 (as the component behaves): selecting another filter sends a fetch
    for the new filter at once and leaves the fetches already in flight
    pending; every fulfilled response, whichever request it answers, is
    applied when it arrives, with the filter under which that request was
    made.  The window therefore shows the filter of the response that
    arrived last: it matches the latest filter when the response to the
    latest request is the last to arrive. *)
Theorem C1_every_response_is_applied_under_its_own_filter :
  (forall now st value,
     isAuthenticated st = true ->
     String.eqb value (filter st) = false ->
     exists st',
       step now st (FilterSelected value) = Some st' /\
       filter st' = value /\
       pending st' = pending st ++ [capture st'] /\
       captured_filter (capture st') = value /\
       api st' = api st ++ [(now, Api.getExecutions (params (capture st')))] /\
       executions st' = executions st)
  /\ (forall now st i c response st',
        pending st !! i = Some c ->
        step now st (FetchSettled i (Js.Fulfilled response)) = Some st' ->
        executions st' =
          List.filter (matches (captured_filter c)) (mockExecutions now) /\
        Forall (fun e => matches (captured_filter c) e = true) (executions st') /\
        filter st' = filter st /\
        pending st' = delete i (pending st)).
Proof.
  split.
  - intros now st value Ha Hne. simpl. rewrite Ha, Hne.
    eexists. split; [reflexivity|].
    unfold rerun, effect, fetchExecutions; simpl. rewrite Ha; simpl.
    destruct (autoRefresh st); simpl; auto 10.
  - intros now st i c response st' Hi; simpl. rewrite Hi.
    intros [= <-].
    assert (E : executions
                  (fetchExecutions_settled c (Js.Fulfilled response) now
                     (resumed i st)) =
                List.filter (matches (captured_filter c)) (mockExecutions now))
      by reflexivity.
    rewrite E.
    split; [reflexivity|]. split; [apply filter_all|].
    split; reflexivity.
Qed.

Lemma C1_witness :
  exists st',
    step 0 (mount true 0) (FetchSettled 0%nat (Js.Fulfilled Spec.noExecutions))
      = Some st'
    /\ executions st' =
         List.filter (matches (captured_filter (Spec.requestedUnder "all")))
           (mockExecutions 0).
Proof.
  eassert (Hstep : step 0 (mount true 0)
                     (FetchSettled 0%nat (Js.Fulfilled Spec.noExecutions))
                   = Some _)
    by (vm_compute; reflexivity).
  eexists. split; [exact Hstep|].
  exact (proj1 (proj2 C1_every_response_is_applied_under_its_own_filter
                  0 (mount true 0) 0%nat (Spec.requestedUnder "all")
                  Spec.noExecutions _ eq_refl Hstep)).
Defined.

(** C1, as stated, fails: the filter is changed from [all] to [error]
    while the first fetch is in flight; the response to the second fetch
    arrives first, the response to the first one after it, and the window
    ends up holding all five records although the filter is [error]. *)
Lemma C1_stale_response_overwrites_the_window :
  (exists w,
     Hub.run (Spec.mounted true false None None 0)
       [ Hub.Feed (FilterSelected "error");
         Hub.Feed (FetchSettled 1%nat (Js.Fulfilled Spec.noExecutions));
         Hub.Feed (FetchSettled 0%nat (Js.Fulfilled Spec.noExecutions)) ] = Some w
     /\ filter (Hub.feed w) = "error"
     /\ map ExecutionItem.id (executions (Hub.feed w))
          = ["1"; "2"; "3"; "4"; "5"])
  /\ ~ Spec.staleResponsesDiscarded.
Proof.
  split.
  - eexists. split; [vm_compute; reflexivity|]. split; reflexivity.
  - intros H.
    eassert (Hrun : Hub.run (Spec.mounted true false None None 0)
                      [ Hub.Feed (FilterSelected "error");
                        Hub.Feed (FetchSettled 1%nat (Js.Fulfilled Spec.noExecutions)) ]
                    = Some _)
      by (vm_compute; reflexivity).
    match type of Hrun with
      | _ = Some ?w0 =>
          eassert (Hstep : Hub.step w0
                             (Hub.Feed (FetchSettled 0%nat (Js.Fulfilled Spec.noExecutions)))
                           = Some _)
            by (vm_compute; reflexivity)
      end.
    assert (Hne : "all" <> "error") by discriminate.
    pose proof (H _ _ _ _ _ _ _ 0%nat (Spec.requestedUnder "all")
                  Spec.noExecutions _ Hrun eq_refl Hne Hstep) as Hsame.
    vm_compute in Hsame. discriminate Hsame.
Qed.

End FeedClaims.

Section FeedResults.
Import ExecutionMonitor.

(** C6 (as the component behaves): when a fetch fails, the error state
    becomes the failure's message if it has a non-empty one and the text
    "Failed to load executions" otherwise; either way the error banner
    shows, the window of executions is the one held before, and
    [loading] is cleared. *)
Theorem C6_failed_fetch_sets_error_and_keeps_window
    (now : Z) (st : State) (i : nat) (c : Closure) (message : option string) :
  pending st !! i = Some c ->
  exists st',
    step now st (FetchSettled i (Js.Rejected message)) = Some st' /\
    error st' = Some (Js.orElse message "Failed to load executions") /\
    (forall m, message = Some m -> m <> "" -> error st' = Some m) /\
    Js.truthy (error st') = true /\
    executions st' = executions st /\
    loading st' = false.
Proof.
  intros Hi. simpl. rewrite Hi.
  eexists. split; [reflexivity|]. simpl.
  split; [reflexivity|].
  split.
  { intros m -> Hm. simpl.
    destruct (String.eqb_spec m ""); [contradiction|reflexivity]. }
  split; [apply truthy_orElse; discriminate|]. auto.
Qed.

Lemma C6_witness :
  pending (mount true 0) !! 0%nat = Some (Spec.requestedUnder "all")
  /\ exists st',
       step 0 (mount true 0)
         (FetchSettled 0%nat (Js.Rejected (Some "Network Error"))) = Some st'
       /\ error st' = Some "Network Error".
Proof.
  split; [reflexivity|].
  destruct (C6_failed_fetch_sets_error_and_keeps_window 0 (mount true 0) 0
              (Spec.requestedUnder "all") (Some "Network Error") eq_refl)
    as (st' & Hstep & Herr & _).
  exists st'. split; [exact Hstep | exact Herr].
Defined.

(** C6, as stated, fails for a failure that carries an empty message (as
    [new Error()] does): the error state is not that message but the
    default text. *)
Lemma C6_empty_message_is_replaced :
  (exists st',
     step 0 (mount true 0) (FetchSettled 0%nat (Js.Rejected (Some ""))) = Some st'
     /\ error st' = Some "Failed to load executions")
  /\ ~ Spec.errorIsFailureMessage.
Proof.
  split.
  - eexists. split; reflexivity.
  - intros H.
    specialize (H 0 (mount true 0) 0%nat (Some "") _ eq_refl).
    discriminate H.
Qed.

Lemma timeless_window flt now1 now2 :
  map Spec.timeless (List.filter (matches flt) (mockExecutions now1)) =
  map Spec.timeless (List.filter (matches flt) (mockExecutions now2)).
Proof.
  unfold mockExecutions, matches; cbn -[Js.toISOString Z.sub Z.mul String.eqb].
  destruct (String.eqb flt "all"); cbn -[Js.toISOString Z.sub Z.mul String.eqb];
    [reflexivity|].
  destruct (String.eqb "success" flt), (String.eqb "running" flt),
    (String.eqb "error" flt); reflexivity.
Qed.

(** C9 (as the component behaves): after a successful fetch the window is
    a function of the filter the fetch was requested under and of the
    clock reading at the time the response is handled, and of nothing
    else: not of the response, not of the expanded flag, not of the state
    before.  Two successful fetches under the same filter handled at the
    same clock reading expose identical windows; handled at different
    times they expose the same records in the same order, identical in
    every field but [startedAt]. *)
Theorem C9_window_depends_on_filter_and_clock_only
    (c1 c2 : Closure) (r1 r2 : Api.ExecutionsResponse) (st1 st2 : State) :
  captured_filter c1 = captured_filter c2 ->
  (forall now,
     executions (fetchExecutions_settled c1 (Js.Fulfilled r1) now st1) =
     executions (fetchExecutions_settled c2 (Js.Fulfilled r2) now st2))
  /\ (forall now1 now2,
        map Spec.timeless
          (executions (fetchExecutions_settled c1 (Js.Fulfilled r1) now1 st1)) =
        map Spec.timeless
          (executions (fetchExecutions_settled c2 (Js.Fulfilled r2) now2 st2))).
Proof.
  intros Hflt. split.
  - intros now. simpl. now rewrite Hflt.
  - intros now1 now2. simpl. rewrite Hflt. apply timeless_window.
Qed.

Lemma C9_witness :
  executions
    (fetchExecutions_settled (Spec.requestedUnder "error")
       (Js.Fulfilled Spec.noExecutions) 1000 (initial true)) =
  executions
    (fetchExecutions_settled (Spec.requestedUnder "error")
       (Js.Fulfilled
          {| Api.executions := [Spec.failedExecution "e1" "2024-01-01T00:00:00.000Z"] |})
       1000 (mount true 0)).
Proof.
  apply (proj1 (C9_window_depends_on_filter_and_clock_only
                  (Spec.requestedUnder "error") (Spec.requestedUnder "error")
                  Spec.noExecutions _ (initial true) (mount true 0) eq_refl)).
Defined.

(** C9, as stated, fails: two successful fetches under the same filter
    and the same expanded flag, handled one minute apart, expose windows
    that differ (in the [startedAt] of every record). *)
Lemma C9_window_changes_with_the_clock :
  executions
    (fetchExecutions_settled (Spec.requestedUnder "all")
       (Js.Fulfilled Spec.noExecutions) 1700000000000 (initial true)) <>
  executions
    (fetchExecutions_settled (Spec.requestedUnder "all")
       (Js.Fulfilled Spec.noExecutions) 1700000060000 (initial true))
  /\ ~ Spec.windowFunctionOfFilterAlone.
Proof.
  assert (Hne :
    executions
      (fetchExecutions_settled (Spec.requestedUnder "all")
         (Js.Fulfilled Spec.noExecutions) 1700000000000 (initial true)) <>
    executions
      (fetchExecutions_settled (Spec.requestedUnder "all")
         (Js.Fulfilled Spec.noExecutions) 1700000060000 (initial true))).
  { vm_compute. discriminate. }
  split; [exact Hne|].
  intros H. apply Hne. apply H; reflexivity.
Qed.

(** C7: on the input of the specification's example the feed does not
    expose the backend's records.  With filter [error] and limit 10, a
    response carrying two error records leaves one record in the window,
    the built-in record "4", and neither of the two returned; and under
    filter [all] the first exposed record started before the second one,
    so the window is not newest-first.  What does hold for every filter:
    the window has at most five records, within either window size, and
    every record in it matches the filter. *)
Theorem C7_window_is_built_from_fixed_records :
  (exists w,
     Hub.run (Spec.mounted true false None None 1700000000000)
       [ Hub.Feed (FilterSelected "error");
         Hub.Feed (FetchSettled 0%nat (Js.Fulfilled Spec.noExecutions));
         Hub.Feed (FetchSettled 0%nat (Js.Fulfilled
            {| Api.executions :=
                 [ Spec.failedExecution "e1" "2023-11-14T22:10:00.000Z";
                   Spec.failedExecution "e2" "2023-11-14T22:05:00.000Z" ] |})) ]
       = Some w
     /\ map snd (api (Hub.feed w)) =
          [ Api.getExecutions {| Api.status := None; Api.limit := 10 |};
            Api.getExecutions {| Api.status := Some "error"; Api.limit := 10 |} ]
     /\ map (fun e => (ExecutionItem.id e, ExecutionItem.startedAt e))
          (executions (Hub.feed w)) = [ ("4", "2023-11-14T21:43:20.000Z") ])
  /\ (exists first second rest,
        List.filter (matches "all") (mockExecutions 1700000000000)
          = first :: second :: rest
        /\ Spec.earlier (ExecutionItem.startedAt first)
             (ExecutionItem.startedAt second) = true)
  /\ (forall c now,
        (length (List.filter (matches (captured_filter c)) (mockExecutions now))
           <= 5)%nat
        /\ 5 <= Api.limit (params c)
        /\ Forall (fun e => matches (captured_filter c) e = true)
             (List.filter (matches (captured_filter c)) (mockExecutions now))).
Proof.
  split.
  { eexists. split; [vm_compute; reflexivity|]. split; vm_compute; reflexivity. }
  split.
  { do 3 eexists. split; [reflexivity|]. vm_compute. reflexivity. }
  intros c now. split; [|split].
  - etransitivity; [apply filter_length_le|]. simpl. lia.
  - unfold params; simpl. destruct (captured_expanded c); lia.
  - apply filter_all.
Qed.

End FeedResults.

(** ** The workflow actions *)

Section PanelClaims.
Import WorkflowStatusPanel.

(** C4 (as the panel behaves): no event of the panel, dispatched action or
    settled promise, changes the clock, the health slot or the execution
    feed: their state, the requests they have sent included, stays as it
    was, so a dispatch never makes the feed fetch.  When the backend
    accepts a workflow execution, the panel at once asks for the list of
    workflows again and shows its spinner; the acknowledgment is not kept:
    the panel ends in the same state whatever the acknowledgment was.
    When the backend refuses, the panel's error becomes the failure's
    message (or "Failed to execute workflow"), no request is sent and the
    workflows held stay as they were.  The two quick actions send their
    one request and change nothing else. *)
Theorem C4_dispatch_refreshes_the_workflow_list_only :
  (forall w e w',
     Hub.step w (Hub.Panel e) = Some w' ->
     Hub.health w' = Hub.health w /\ Hub.feed w' = Hub.feed w /\
     Hub.clock w' = Hub.clock w)
  /\ (forall now st i entityType r st',
        pending st !! i = Some (Executing entityType) ->
        step now st (Settled i (Executed r)) = Some st' ->
        match r with
        | Js.Fulfilled ack =>
            api st' = api st ++ [(now, Api.getWorkflows)] /\
            pending st' = delete i (pending st) ++ [Refreshing entityType] /\
            loading st' = true /\
            workflows st' = workflows st /\ error st' = error st /\
            forall ack',
              step now st (Settled i (Executed (Js.Fulfilled ack'))) = Some st'
        | Js.Rejected message =>
            api st' = api st /\
            pending st' = delete i (pending st) /\
            error st' = Some (Js.orElse message "Failed to execute workflow") /\
            workflows st' = workflows st /\ loading st' = loading st
        end)
  /\ (forall now st i entityType response st',
        pending st !! i = Some (Refreshing entityType) ->
        step now st (Settled i (Workflows (Js.Fulfilled response))) = Some st' ->
        workflows st' = map (summary entityType) (Api.workflows response) /\
        loading st' = false /\ api st' = api st)
  /\ (forall now st st',
        step now st AnalysisClicked = Some st' \/
        step now st PredictClicked = Some st' ->
        (exists call, api st' = api st ++ [(now, call)] /\
           Api.isGetExecutions call = false /\
           Api.isGetIntegrationsHealth call = false) /\
        workflows st' = workflows st /\ loading st' = loading st /\
        error st' = error st /\ pending st' = pending st).
Proof.
  split; [|split; [|split]].
  - intros w e w'; simpl.
    destruct (step (Hub.clock w) (Hub.panel w) e); [|discriminate].
    now intros [= <-].
  - intros now st i entityType r st' Hi; simpl. rewrite Hi.
    intros [= <-]. destruct r as [ack|message]; simpl; auto 10.
  - intros now st i entityType response st' Hi; simpl. rewrite Hi.
    now intros [= <-].
  - intros now st st'; simpl.
    destruct (quickActionsShown st); [|intros [H|H]; discriminate H].
    intros [[= <-]|[= <-]]; simpl; (split; [eexists; split; [reflexivity|]|]);
      auto.
Qed.

Lemma C4_witness :
  exists w w',
    Hub.run (Spec.mounted true true (Some "parcel-1") (Some "AgriParcel") 0)
      Spec.executeClicked = Some w
    /\ Hub.step w (Hub.Panel (Settled 0%nat
         (Executed (Js.Rejected (Some "HTTP 500"))))) = Some w'
    /\ Hub.feed w' = Hub.feed w.
Proof.
  eexists. eexists.
  split; [vm_compute; reflexivity|].
  split; [vm_compute; reflexivity|].
  refine (proj1 (proj2 (proj1 C4_dispatch_refreshes_the_workflow_list_only
                          _ (Settled 0%nat (Executed (Js.Rejected (Some "HTTP 500"))))
                          _ _)));
    vm_compute; reflexivity.
Defined.

(** C4, as stated, fails: a workflow is executed, the backend accepts, and
    the execution feed sends nothing: its only request is still the one
    it made when it was mounted, while the panel has asked for the
    workflows again. *)
Lemma C4_successful_dispatch_leaves_the_feed_alone :
  (exists w,
     Hub.run (Spec.mounted true true (Some "parcel-1") (Some "AgriParcel") 0)
       [ Hub.Panel (Settled 0%nat (Workflows (Js.Fulfilled
           {| Api.workflows := [Spec.irrigationWorkflow] |})));
         Hub.Wait 5000;
         Hub.Panel (ExecuteClicked "wf-7");
         Hub.Panel (Settled 0%nat (Executed (Js.Fulfilled
           (Spec.acknowledgment "exec-42")))) ] = Some w
     /\ map fst (ExecutionMonitor.api (Hub.feed w)) = [0]
     /\ List.filter (fun r => Api.isGetWorkflows (snd r)) (api (Hub.panel w))
          = [ (0, Api.getWorkflows); (5000, Api.getWorkflows) ])
  /\ ~ Spec.dispatchRefreshesFeed.
Proof.
  split.
  - eexists. split; [vm_compute; reflexivity|]. split; reflexivity.
  - intros H.
    eassert (Hrun : Hub.run
                      (Spec.mounted true true (Some "parcel-1")
                         (Some "AgriParcel") 0)
                      Spec.executeClicked = Some _)
      by (vm_compute; reflexivity).
    match type of Hrun with
      | _ = Some ?w0 =>
          eassert (Hstep : Hub.step w0
                             (Hub.Panel (Settled 0%nat (Executed (Js.Fulfilled (Spec.acknowledgment "exec-42")))))
                           = Some _)
            by (vm_compute; reflexivity)
      end.
    specialize (H _ _ _ _ _ _ _ _ _ _ Hrun Hstep).
    vm_compute in H.
    repeat match goal with H : le _ _ |- _ => inversion H; clear H end.
Qed.

End PanelClaims.

(** * Further properties of the components *)

(** ** Invariants carried along a run of the mounted slots *)

Section RunInvariants.

Lemma health_run_invariant (P : IntegrationStatus.State -> Prop) :
  (forall now st ev st',
     IntegrationStatus.step now st ev = Some st' -> P st -> P st') ->
  (forall auth now st, P st -> P (IntegrationStatus.authChanged auth now st)) ->
  forall evs w w',
    Hub.run w evs = Some w' -> P (Hub.health w) -> P (Hub.health w').
Proof.
  intros Hstep Hauth. induction evs as [|ev evs IH]; simpl; intros w w'.
  - now intros [= <-].
  - destruct (Hub.step w ev) as [w1|] eqn:E; [|discriminate].
    intros Hrun HP. apply (IH _ _ Hrun).
    destruct ev as [dt|auth|eid ety|e|e|e]; simpl in E.
    + destruct (_ && _); [|discriminate]. now injection E as <-.
    + injection E as <-. now apply Hauth.
    + now injection E as <-.
    + destruct (IntegrationStatus.step _ _ e) eqn:E'; [|discriminate].
      injection E as <-. eapply Hstep; eassumption.
    + destruct (ExecutionMonitor.step _ _ e); [|discriminate].
      now injection E as <-.
    + destruct (WorkflowStatusPanel.step _ _ e); [|discriminate].
      now injection E as <-.
Qed.

Lemma feed_run_invariant (P : ExecutionMonitor.State -> Prop) :
  (forall now st ev st',
     ExecutionMonitor.step now st ev = Some st' -> P st -> P st') ->
  (forall auth now st, P st -> P (ExecutionMonitor.authChanged auth now st)) ->
  forall evs w w',
    Hub.run w evs = Some w' -> P (Hub.feed w) -> P (Hub.feed w').
Proof.
  intros Hstep Hauth. induction evs as [|ev evs IH]; simpl; intros w w'.
  - now intros [= <-].
  - destruct (Hub.step w ev) as [w1|] eqn:E; [|discriminate].
    intros Hrun HP. apply (IH _ _ Hrun).
    destruct ev as [dt|auth|eid ety|e|e|e]; simpl in E.
    + destruct (_ && _); [|discriminate]. now injection E as <-.
    + injection E as <-. now apply Hauth.
    + now injection E as <-.
    + destruct (IntegrationStatus.step _ _ e); [|discriminate].
      now injection E as <-.
    + destruct (ExecutionMonitor.step _ _ e) eqn:E'; [|discriminate].
      injection E as <-. eapply Hstep; eassumption.
    + destruct (WorkflowStatusPanel.step _ _ e); [|discriminate].
      now injection E as <-.
Qed.

End RunInvariants.

(** ** The health slot *)

Section HealthExtras.
Import IntegrationStatus.

Lemma merge_merge a b i : merge b (merge a i) = merge b i.
Proof. reflexivity. Qed.

Lemma merge_markUnknown a i : merge a (markUnknown i) = merge a i.
Proof. reflexivity. Qed.

(** X1: a successful poll erases every trace of the polls before it.
    After a fulfilled poll the snapshot is what the response makes of the
    descriptors alone: whatever statuses and latencies the entries held
    before, left by an earlier response or by an earlier failure, the
    result is the same. *)
Theorem health_success_overrides_history
    (healthData : list IntegrationHealth.t)
    (r : Js.Settled (list IntegrationHealth.t)) (st : State) :
  integrations
    (checkHealth_settled (Js.Fulfilled healthData) (checkHealth_settled r st))
  = integrations (checkHealth_settled (Js.Fulfilled healthData) st)
  /\ integrations (checkHealth_settled (Js.Fulfilled healthData) st)
     = map (fun i => merge healthData
                       {| id := id i; name := name i; icon := icon i;
                          status := IntegrationHealth.unknown;
                          latency := None |})
         (integrations st).
Proof.
  split.
  - destruct r as [a|m]; simpl; rewrite map_map; apply map_ext; reflexivity.
  - simpl. apply map_ext. reflexivity.
Qed.

(** X2: a failed poll blanks the statuses and nothing else: every entry
    keeps its id, name, icon and latency.  So after a successful poll
    followed by a failed one, each descriptor is [unknown] and still
    carries the latency the successful response reported for it. *)
Theorem health_failure_keeps_latency
    (healthData : list IntegrationHealth.t) (message : option string)
    (st : State) (k : nat) (i : Integration) :
  integrations st !! k = Some i ->
  integrations (checkHealth_settled (Js.Rejected message) st) !! k =
    Some {| id := id i; name := name i; icon := icon i;
            status := IntegrationHealth.unknown; latency := latency i |}
  /\ exists i',
       integrations
         (checkHealth_settled (Js.Rejected message)
            (checkHealth_settled (Js.Fulfilled healthData) st)) !! k = Some i'
       /\ status i' = IntegrationHealth.unknown
       /\ latency i' =
            match find (fun h => String.eqb (IntegrationHealth.id h) (id i))
                    healthData with
            | Some h => IntegrationHealth.latency h
            | None => None
            end.
Proof.
  intros Hk. split.
  - simpl. rewrite lookup_map, Hk. reflexivity.
  - eexists. split.
    + simpl. rewrite map_map, lookup_map, Hk. reflexivity.
    + split; reflexivity.
Qed.

Lemma health_failure_keeps_latency_witness :
  integrations (mount registry true 0) !! 1%nat =
    Some {| id := "sentinel"; name := "NDVI"; icon := Satellite;
            status := IntegrationHealth.unknown; latency := None |}
  /\ integrations
       (checkHealth_settled (Js.Rejected (Some "timeout"))
          (mount registry true 0)) !! 1%nat =
     Some {| id := "sentinel"; name := "NDVI"; icon := Satellite;
             status := IntegrationHealth.unknown; latency := None |}.
Proof.
  split; [reflexivity|].
  exact (proj1 (health_failure_keeps_latency [] (Some "timeout")
                  (mount registry true 0) 1%nat _ eq_refl)).
Defined.

End HealthExtras.

Section HealthInvariants.
Import IntegrationStatus.

Lemma healthTidy_step now st ev st' :
  step now st ev = Some st' ->
  Invariants.healthTidy st -> Invariants.healthTidy st'.
Proof.
  unfold Invariants.healthTidy.
  destruct st as [ints ld ex au iv pd lg], ev as [| | |r]; simpl;
    unfold refreshEnabled, checkHealth; simpl; intros H (H1 & H2 & H3).
  - destruct iv as [h|]; [|discriminate].
    destruct (due h =? now); [|discriminate]. injection H as <-.
    destruct (captured_isAuthenticated (callback h)); simpl; auto.
    rewrite length_app, Forall_app; simpl.
    repeat split; auto; try lia; try solve [repeat constructor].
  - destruct au; [|discriminate]. destruct ld; [discriminate|].
    injection H as <-. simpl.
    rewrite length_app, Forall_app; simpl.
    repeat split; auto; try lia; try solve [repeat constructor].
  - destruct au; [|discriminate]. injection H as <-. simpl. auto.
  - destruct pd as [|n]; [discriminate|]. injection H as <-.
    destruct r; simpl; repeat split; auto; try discriminate; lia.
Qed.

Lemma healthTidy_authChanged auth now st :
  Invariants.healthTidy st ->
  Invariants.healthTidy (authChanged auth now st).
Proof.
  unfold Invariants.healthTidy, authChanged.
  destruct (Bool.eqb auth _); [auto|].
  destruct st as [ints ld ex au iv pd lg]; unfold effect, checkHealth; simpl.
  intros (H1 & H2 & H3). destruct auth; simpl; auto.
  rewrite length_app, Forall_app; simpl.
  repeat split; auto; try lia; try solve [repeat constructor].
Qed.

Lemma healthTidy_mount reg auth now : Invariants.healthTidy (mount reg auth now).
Proof.
  unfold Invariants.healthTidy, mount, effect, checkHealth.
  destruct auth; simpl; repeat split; auto; try discriminate;
    try lia; repeat constructor.
Qed.

(** X3: in every state the mounted health slot can reach, a spinner on
    the refresh button means that a health request is awaited, so the
    spinner cannot stay on after the last request has settled; no more
    requests are awaited than were sent; and the slot has sent nothing
    but [getIntegrationsHealth] requests. *)
Theorem health_spinner_means_request_in_flight
    (reg : list Integration) (auth admin : bool)
    (entityId entityType : option string) (t0 : Z)
    (evs : list Hub.Event) (w : Hub.World) :
  Hub.run (Hub.mount reg auth admin entityId entityType t0) evs = Some w ->
  (loading (Hub.health w) = true -> (0 < pending (Hub.health w))%nat)
  /\ (pending (Hub.health w) <= length (api (Hub.health w)))%nat
  /\ Forall (fun r => snd r = Api.getIntegrationsHealth) (api (Hub.health w)).
Proof.
  intros Hrun.
  apply (health_run_invariant Invariants.healthTidy healthTidy_step
           healthTidy_authChanged _ _ _ Hrun).
  apply healthTidy_mount.
Qed.

Lemma health_spinner_means_request_in_flight_witness :
  exists w,
    Hub.run (Spec.mounted true false None None 0) Spec.twoPolls = Some w
    /\ (pending (Hub.health w) <= length (api (Hub.health w)))%nat.
Proof.
  eexists. split; [vm_compute; reflexivity|].
  refine (proj1 (proj2
            (health_spinner_means_request_in_flight registry true false
               None None 0 Spec.twoPolls _ _))).
  vm_compute; reflexivity.
Defined.

(** X4: an automatic tick is not held back by a poll in flight.  While
    the user is authenticated, every firing of the health interval sends
    a request and adds one to the polls awaited, whether or not the slot
    is already loading; the refresh button, in contrast, does nothing
    while the slot is loading. *)
Theorem health_tick_polls_even_while_loading
    (reg : list Integration) (auth admin : bool)
    (entityId entityType : option string) (t0 : Z)
    (evs : list Hub.Event) (w w' : Hub.World) :
  Hub.run (Hub.mount reg auth admin entityId entityType t0) evs = Some w ->
  isAuthenticated (Hub.health w) = true ->
  Hub.step w (Hub.Health IntervalFired) = Some w' ->
  pending (Hub.health w') = S (pending (Hub.health w))
  /\ api (Hub.health w') =
       api (Hub.health w) ++ [(Hub.clock w, Api.getIntegrationsHealth)]
  /\ loading (Hub.health w') = true
  /\ (loading (Hub.health w) = true ->
      Hub.step w (Hub.Health RefreshClicked) = None).
Proof.
  intros Hrun Hauth Hstep.
  destruct (coherent_reachable _ _ _ _ _ _ _ _ Hrun) as [_ _ _ Hfresh _ _ _].
  unfold Spec.healthCallbackFresh in Hfresh. simpl in Hstep.
  destruct (interval (Hub.health w)) as [h|]; [|discriminate].
  destruct (due h =? Hub.clock w); [|discriminate].
  injection Hstep as <-. simpl. rewrite Hfresh.
  unfold checkHealth; simpl. rewrite Hauth; simpl.
  repeat (split; [reflexivity|]).
  intros Hl. unfold refreshEnabled. rewrite Hauth, Hl. reflexivity.
Qed.

Lemma health_tick_polls_even_while_loading_witness :
  exists w w',
    Hub.run (Spec.mounted true false None None 0)
      [Hub.Feed ExecutionMonitor.AutoRefreshClicked; Hub.Wait 60000] = Some w
    /\ Hub.step w (Hub.Health IntervalFired) = Some w'
    /\ pending (Hub.health w') = S (pending (Hub.health w)).
Proof.
  eexists. eexists.
  split; [vm_compute; reflexivity|].
  split; [vm_compute; reflexivity|].
  refine (proj1 (health_tick_polls_even_while_loading registry true false
                   None None 0
                   [Hub.Feed ExecutionMonitor.AutoRefreshClicked; Hub.Wait 60000]
                   _ _ _ _ _));
    vm_compute; reflexivity.
Defined.

Lemma length_filter_le {A : Type} (P : A -> Prop) `{forall x, Decision (P x)}
    (l : list A) : (length (filter P l) <= length l)%nat.
Proof.
  induction l as [|x l IH]; simpl; [lia|].
  rewrite filter_cons. destruct (decide (P x)); simpl; lia.
Qed.

(** X5: the figures of the card.  Whenever the card is rendered,
    [healthyCount] never exceeds [totalCount], [totalCount] is the number
    of descriptors, and there are as many status dots as descriptors, up
    to six.  Right after a failed poll the card, if rendered, counts no
    healthy integration. *)
Theorem health_card_counts (st : State) (card : Card) :
  render st = Some card ->
  (healthyCount card <= totalCount card)%nat
  /\ totalCount card = length (integrations st)
  /\ length (dots card) = Nat.min 6 (length (integrations st))
  /\ (forall message card',
        render (checkHealth_settled (Js.Rejected message) st) = Some card' ->
        healthyCount card' = 0%nat /\ totalCount card' = totalCount card).
Proof.
  unfold render. destruct (isAuthenticated st) eqn:Ha; [|discriminate].
  simpl. intros [= <-]; simpl.
  split; [apply length_filter_le|]. split; [reflexivity|].
  split; [now rewrite length_map, length_firstn|].
  intros message card'. rewrite Ha; simpl. intros [= <-]; simpl.
  rewrite length_map. split; [|reflexivity].
  induction (integrations st) as [|i l IH]; simpl; [reflexivity|].
  rewrite filter_cons. destruct (decide _) as [E|E]; [discriminate E|exact IH].
Qed.

Lemma health_card_counts_witness :
  exists card,
    render (mount registry true 0) = Some card
    /\ totalCount card = 6%nat.
Proof.
  eexists. split; [reflexivity|].
  exact (proj1 (proj2 (health_card_counts (mount registry true 0) _ eq_refl))).
Defined.

(** X6: the colour and the icon of a status.  On the four status
    literals [getStatusColor] is one-to-one, and so is [getStatusIcon]
    (icon and class together): the dot and the icon each tell the
    statuses apart.  Any other string is shown exactly as [unknown]
    is. *)
Theorem health_status_colours_are_distinct :
  (forall s1 s2,
     getStatusColor (literal s1) = getStatusColor (literal s2) -> s1 = s2)
  /\ (forall s1 s2,
        getStatusIcon (literal s1) = getStatusIcon (literal s2) -> s1 = s2)
  /\ (forall s,
        s <> "healthy" -> s <> "degraded" -> s <> "unhealthy" ->
        getStatusColor s = getStatusColor (literal IntegrationHealth.unknown) /\
        getStatusIcon s = getStatusIcon (literal IntegrationHealth.unknown)).
Proof.
  split; [|split].
  - intros [] []; simpl; intros H; try reflexivity; discriminate H.
  - intros [] []; simpl; intros H; try reflexivity; discriminate H.
  - intros s H1 H2 H3. unfold getStatusColor, getStatusIcon.
    destruct (String.eqb_spec s "healthy"); [contradiction|].
    destruct (String.eqb_spec s "degraded"); [contradiction|].
    destruct (String.eqb_spec s "unhealthy"); [contradiction|].
    split; reflexivity.
Qed.

Lemma health_status_colours_are_distinct_witness :
  getStatusColor "offline" = "bg-gray-400".
Proof.
  refine (proj1 (proj2 (proj2 health_status_colours_are_distinct)
                   "offline" _ _ _)); discriminate.
Defined.

End HealthInvariants.

(** ** The execution feed *)

Section FeedInvariants.
Import ExecutionMonitor.

Lemma params_wellFormed c : Invariants.wellFormedQuery (params c).
Proof.
  unfold Invariants.wellFormedQuery, params; simpl. split.
  - destruct (String.eqb_spec (captured_filter c) "all") as [E|E]; simpl;
      [discriminate|]. intros [= H]. contradiction.
  - destruct (captured_expanded c); auto.
Qed.

Lemma feedTidy_ext st st' :
  loading st' = loading st -> pending st' = pending st -> api st' = api st ->
  Invariants.feedTidy st -> Invariants.feedTidy st'.
Proof. unfold Invariants.feedTidy. intros -> -> ->. auto. Qed.

Lemma feedTidy_fetch c now st :
  Invariants.feedTidy st -> Invariants.feedTidy (fetchExecutions c now st).
Proof.
  unfold fetchExecutions. destruct (captured_isAuthenticated c) eqn:Hc; simpl;
    [|auto].
  unfold Invariants.feedTidy; simpl. intros (H1 & H2 & H3).
  split; [intros _ E; apply app_eq_nil in E as [_ E]; discriminate E|].
  split.
  - apply Forall_app. split.
    + eapply Forall_impl; [exact H2|]. simpl.
      intros c' (Ha & t & Hin). split; [exact Ha|].
      exists t. apply in_or_app. now left.
    + constructor; [|constructor]. split; [exact Hc|].
      exists now. apply in_or_app. right. now left.
  - apply Forall_app. split; [exact H3|].
    constructor; [|constructor]. eexists. split; [reflexivity|].
    apply params_wellFormed.
Qed.

Lemma feedTidy_effect now st :
  Invariants.feedTidy st -> Invariants.feedTidy (effect now st).
Proof.
  intros H. unfold effect.
  destruct (autoRefresh st);
    [eapply feedTidy_ext; [| | |apply feedTidy_fetch; exact H]; reflexivity
    |apply feedTidy_fetch; exact H].
Qed.

Lemma feedTidy_rerun now st st0 :
  loading st0 = loading st -> pending st0 = pending st -> api st0 = api st ->
  Invariants.feedTidy st -> Invariants.feedTidy (rerun now st0).
Proof.
  intros E1 E2 E3 H. unfold rerun. apply feedTidy_effect.
  eapply feedTidy_ext; [| | |exact H]; simpl; assumption.
Qed.

Lemma feedTidy_step now st ev st' :
  step now st ev = Some st' ->
  Invariants.feedTidy st -> Invariants.feedTidy st'.
Proof.
  destruct ev as [v| | | |i r]; simpl; intros Hstep H.
  - destruct (isAuthenticated st); [|discriminate].
    destruct (String.eqb v (filter st)); injection Hstep as <-; [exact H|].
    eapply feedTidy_rerun; [| | |exact H]; reflexivity.
  - destruct (isAuthenticated st); [|discriminate]. injection Hstep as <-.
    eapply feedTidy_rerun; [| | |exact H]; reflexivity.
  - destruct (isAuthenticated st); [|discriminate]. injection Hstep as <-.
    eapply feedTidy_rerun; [| | |exact H]; reflexivity.
  - destruct (interval st) as [h|]; [|discriminate].
    destruct (due h =? now); [|discriminate]. injection Hstep as <-.
    eapply feedTidy_ext; [| | |apply feedTidy_fetch; exact H]; reflexivity.
  - destruct (pending st !! i) as [c|] eqn:Hi; [|discriminate].
    injection Hstep as <-.
    destruct H as (H1 & H2 & H3). unfold Invariants.feedTidy.
    destruct r; simpl; (split; [discriminate|]);
      (split; [apply Forall_delete; exact H2 | exact H3]).
Qed.

Lemma feedTidy_authChanged auth now st :
  Invariants.feedTidy st -> Invariants.feedTidy (authChanged auth now st).
Proof.
  intros H. unfold authChanged. destruct (Bool.eqb auth _); [exact H|].
  eapply feedTidy_rerun; [| | |exact H]; reflexivity.
Qed.

Lemma feedTidy_mount auth now : Invariants.feedTidy (mount auth now).
Proof.
  apply feedTidy_effect. unfold Invariants.feedTidy; simpl.
  split; [discriminate|]. split; constructor.
Qed.

(** X7: what the feed has sent and what it awaits, in every state the
    mounted feed can reach.  Every request it has sent is a
    [getExecutions] whose [status] is never ["all"] (the filter [all]
    sends no status) and whose [limit] is 10 or 50; every promise it
    awaits belongs to a request that was sent, by a render in which the
    user was authenticated; and while [loading] is set some promise is
    awaited. *)
Theorem feed_requests_are_well_formed
    (reg : list IntegrationStatus.Integration) (auth admin : bool)
    (entityId entityType : option string) (t0 : Z)
    (evs : list Hub.Event) (w : Hub.World) :
  Hub.run (Hub.mount reg auth admin entityId entityType t0) evs = Some w ->
  (loading (Hub.feed w) = true -> pending (Hub.feed w) <> [])
  /\ Forall
       (fun c =>
          captured_isAuthenticated c = true /\
          exists t, In (t, Api.getExecutions (params c)) (api (Hub.feed w)))
       (pending (Hub.feed w))
  /\ Forall
       (fun r =>
          exists p, snd r = Api.getExecutions p /\
            Api.status p <> Some "all" /\
            (Api.limit p = 10 \/ Api.limit p = 50))
       (api (Hub.feed w)).
Proof.
  intros Hrun.
  apply (feed_run_invariant Invariants.feedTidy feedTidy_step
           feedTidy_authChanged _ _ _ Hrun).
  apply feedTidy_mount.
Qed.

Lemma feed_requests_are_well_formed_witness :
  exists w,
    Hub.run (Spec.mounted true false None None 0)
      [ Hub.Feed (FilterSelected "error"); Hub.Feed ExpandClicked;
        Hub.Feed (FetchSettled 1%nat (Js.Rejected None)) ] = Some w
    /\ (loading (Hub.feed w) = true -> pending (Hub.feed w) <> []).
Proof.
  eexists. split; [vm_compute; reflexivity|].
  refine (proj1 (feed_requests_are_well_formed IntegrationStatus.registry
                   true false None None 0
                   [ Hub.Feed (FilterSelected "error"); Hub.Feed ExpandClicked;
                     Hub.Feed (FetchSettled 1%nat (Js.Rejected None)) ] _ _)).
  vm_compute; reflexivity.
Defined.

Lemma feedScheduled_effect now st :
  interval st = None -> Invariants.feedScheduled (effect now st).
Proof.
  unfold Invariants.feedScheduled, effect, fetchExecutions. intros Hnone.
  destruct (autoRefresh st) eqn:Ha, (captured_isAuthenticated (capture st));
    simpl; rewrite ?Ha, ?Hnone; split; intros; congruence.
Qed.

Lemma feedScheduled_step now st ev st' :
  step now st ev = Some st' ->
  Invariants.feedScheduled st -> Invariants.feedScheduled st'.
Proof.
  destruct ev as [v| | | |i r]; simpl; intros Hstep H.
  - destruct (isAuthenticated st); [|discriminate].
    destruct (String.eqb v (filter st)); injection Hstep as <-; [exact H|].
    now apply feedScheduled_effect.
  - destruct (isAuthenticated st); [|discriminate]. injection Hstep as <-.
    now apply feedScheduled_effect.
  - destruct (isAuthenticated st); [|discriminate]. injection Hstep as <-.
    now apply feedScheduled_effect.
  - destruct (interval st) as [h|] eqn:Hi; [|discriminate].
    destruct (due h =? now); [|discriminate]. injection Hstep as <-.
    unfold Invariants.feedScheduled in *. unfold fetchExecutions.
    destruct (captured_isAuthenticated (callback h)); simpl;
      (split; [discriminate|]); intros Ha; apply H in Ha; congruence.
  - destruct (pending st !! i); [|discriminate]. injection Hstep as <-.
    unfold Invariants.feedScheduled in *. destruct r; simpl; exact H.
Qed.

Lemma feedScheduled_authChanged auth now st :
  Invariants.feedScheduled st ->
  Invariants.feedScheduled (authChanged auth now st).
Proof.
  intros H. unfold authChanged. destruct (Bool.eqb auth _); [exact H|].
  now apply feedScheduled_effect.
Qed.

(** X8: the feed holds an interval exactly while auto-refresh is on, in
    every state the mounted feed can reach: switching auto-refresh off
    leaves no timer behind, and no change of filter, window size or
    authentication starts one while it is off. *)
Theorem feed_interval_iff_auto_refresh
    (reg : list IntegrationStatus.Integration) (auth admin : bool)
    (entityId entityType : option string) (t0 : Z)
    (evs : list Hub.Event) (w : Hub.World) :
  Hub.run (Hub.mount reg auth admin entityId entityType t0) evs = Some w ->
  (interval (Hub.feed w) = None <-> autoRefresh (Hub.feed w) = false).
Proof.
  intros Hrun.
  apply (feed_run_invariant Invariants.feedScheduled feedScheduled_step
           feedScheduled_authChanged _ _ _ Hrun).
  now apply feedScheduled_effect.
Qed.

Lemma feed_interval_iff_auto_refresh_witness :
  exists w,
    Hub.run (Spec.mounted true false None None 0)
      [ Hub.Feed AutoRefreshClicked; Hub.Feed (FilterSelected "running");
        Hub.AuthChanged false; Hub.AuthChanged true ] = Some w
    /\ (interval (Hub.feed w) = None <-> autoRefresh (Hub.feed w) = false).
Proof.
  eexists. split; [vm_compute; reflexivity|].
  refine (feed_interval_iff_auto_refresh IntegrationStatus.registry
            true false None None 0
            [ Hub.Feed AutoRefreshClicked; Hub.Feed (FilterSelected "running");
              Hub.AuthChanged false; Hub.AuthChanged true ] _ _).
  vm_compute; reflexivity.
Defined.

End FeedInvariants.

Section FeedControls.
Import ExecutionMonitor.

(** X9: every control of the monitor fetches at once and re-arms the
    timer.  While the user is authenticated, selecting a different
    filter, expanding or collapsing, and toggling auto-refresh each send
    exactly one [getExecutions] request at the time of the click, built
    from the state after the click (limit 50 exactly when expanded), set
    [loading], and leave the window and the error as they were; the
    interval is then due a full ten seconds after the click if
    auto-refresh is on, and absent otherwise.  Selecting the filter
    already selected changes nothing. *)
Theorem feed_controls_fetch_and_rearm
    (now : Z) (st st' : State) (ev : Event) :
  isAuthenticated st = true ->
  (ev = ExpandClicked \/ ev = AutoRefreshClicked \/
   exists value, ev = FilterSelected value /\ value <> filter st) ->
  step now st ev = Some st' ->
  api st' = api st ++ [(now, Api.getExecutions (params (capture st')))]
  /\ pending st' = pending st ++ [capture st']
  /\ loading st' = true
  /\ interval st' =
       (if autoRefresh st'
        then Some {| due := now + 10 * 1000; callback := capture st' |}
        else None)
  /\ Api.limit (params (capture st')) = (if expanded st' then 50 else 10)
  /\ executions st' = executions st /\ error st' = error st
  /\ step now st (FilterSelected (filter st)) = Some st.
Proof.
  intros Ha Hev Hstep.
  assert (Hsame : step now st (FilterSelected (filter st)) = Some st).
  { simpl. now rewrite Ha, String.eqb_refl. }
  destruct Hev as [->|[->|(value & -> & Hne)]]; simpl in Hstep;
    rewrite Ha in Hstep.
  - injection Hstep as <-.
    repeat split; try exact Hsame;
      unfold rerun, effect, fetchExecutions; simpl; rewrite Ha; simpl;
      destruct (autoRefresh st) eqn:Har; simpl; rewrite ?Har; reflexivity.
  - injection Hstep as <-.
    repeat split; try exact Hsame;
      unfold rerun, effect, fetchExecutions; simpl; rewrite Ha; simpl;
      destruct (autoRefresh st) eqn:Har; simpl; rewrite ?Har; reflexivity.
  - destruct (String.eqb_spec value (filter st)); [contradiction|].
    injection Hstep as <-.
    repeat split; try exact Hsame;
      unfold rerun, effect, fetchExecutions; simpl; rewrite Ha; simpl;
      destruct (autoRefresh st) eqn:Har; simpl; rewrite ?Har; reflexivity.
Qed.

Lemma feed_controls_fetch_and_rearm_witness :
  exists st',
    step 4000 (mount true 0) ExpandClicked = Some st'
    /\ api st' =
         api (mount true 0) ++
         [(4000, Api.getExecutions (params (capture st')))].
Proof.
  eassert (Hstep : step 4000 (mount true 0) ExpandClicked = Some _)
    by (vm_compute; reflexivity).
  eexists. split; [exact Hstep|].
  exact (proj1 (feed_controls_fetch_and_rearm 4000 (mount true 0) _
                  ExpandClicked eq_refl (or_introl eq_refl) Hstep)).
Defined.

Lemma hasStatus_exclusive e :
  hasStatus "running" e && hasStatus "error" e = false.
Proof. unfold hasStatus. now destruct (ExecutionItem.status e). Qed.

Lemma counts_disjoint (l : list ExecutionItem.t) :
  (length (List.filter (hasStatus "running") l) +
   length (List.filter (hasStatus "error") l) <= length l)%nat.
Proof.
  induction l as [|e l IH]; simpl; [lia|].
  pose proof (hasStatus_exclusive e) as Hx.
  destruct (hasStatus "running" e), (hasStatus "error" e); simpl in *;
    try discriminate; lia.
Qed.

Lemma matches_literal flt e :
  flt <> "all" -> matches flt e = true ->
  ExecutionItem.literal (ExecutionItem.status e) = flt.
Proof.
  unfold matches. intros Hne.
  destruct (String.eqb_spec flt "all"); [contradiction|]. simpl.
  now intros H%String.eqb_eq.
Qed.

Lemma count_of_uniform flt s (l : list ExecutionItem.t) :
  Forall (fun e => ExecutionItem.literal (ExecutionItem.status e) = flt) l ->
  length (List.filter (hasStatus s) l) =
    if String.eqb flt s then length l else 0%nat.
Proof.
  induction 1 as [|e l He _ IH]; simpl.
  - now destruct (String.eqb flt s).
  - unfold hasStatus at 1. rewrite He.
    destruct (String.eqb flt s); simpl; now rewrite IH.
Qed.

(** X10: what the monitor shows.  The running and the error badges count
    disjoint records, so together they never exceed the window; the
    spinner replaces the timeline only while loading with an empty
    window, and the empty notice only when not loading; the error banner
    shows exactly a non-empty error.  Right after a successful fetch the
    banner is gone and the spinner is not shown, and under a filter other
    than [all] the running badge counts the whole window for the filter
    [running] and nothing for any other filter, and likewise the error
    badge. *)
Theorem feed_monitor_counts (st : State) (p : Panel) :
  render st = Monitor p ->
  (runningCount p + errorCount p <= length (executions st))%nat
  /\ (body p = Spinner <-> loading st = true /\ executions st = [])
  /\ (body p = NoExecutions <-> loading st = false /\ executions st = [])
  /\ (banner p = None <-> Js.truthy (error st) = false)
  /\ (forall c response now p',
        render (fetchExecutions_settled c (Js.Fulfilled response) now st)
          = Monitor p' ->
        banner p' = None /\ body p' <> Spinner /\
        (captured_filter c <> "all" ->
         runningCount p' =
           (if String.eqb (captured_filter c) "running"
            then length (List.filter (matches (captured_filter c))
                           (mockExecutions now))
            else 0%nat) /\
         errorCount p' =
           (if String.eqb (captured_filter c) "error"
            then length (List.filter (matches (captured_filter c))
                           (mockExecutions now))
            else 0%nat))).
Proof.
  intros Hr. unfold render in Hr.
  destruct (isAuthenticated st) eqn:Ha; [|discriminate].
  simpl in Hr. injection Hr as <-. simpl.
  split; [apply counts_disjoint|].
  split.
  { destruct (executions st), (loading st); split;
      try (intros [? ?]); intros; auto; discriminate. }
  split.
  { destruct (executions st), (loading st); split;
      try (intros [? ?]); intros; auto; discriminate. }
  split.
  { destruct (error st) as [m|]; simpl; [|tauto].
    destruct (String.eqb m ""); simpl; split; intros; auto; discriminate. }
  intros c response now p'.
  set (window := List.filter (matches (captured_filter c)) (mockExecutions now)).
  set (st' := fetchExecutions_settled c (Js.Fulfilled response) now st).
  assert (Ea : isAuthenticated st' = true) by exact Ha.
  assert (Ew : executions st' = window) by reflexivity.
  assert (Ee : error st' = None) by reflexivity.
  assert (El : loading st' = false) by reflexivity.
  unfold render. rewrite Ea, Ew, Ee, El. cbn [negb Js.truthy].
  intros [= <-]. cbn [banner body runningCount errorCount].
  split; [reflexivity|].
  split; [destruct window; discriminate|].
  intros Hne.
  assert (Hu : Forall (fun e => ExecutionItem.literal (ExecutionItem.status e)
                                = captured_filter c) window).
  { apply Forall_forall. intros e He.
    apply list_elem_of_In in He. apply filter_In in He as [_ He].
    now apply matches_literal. }
  split; now apply count_of_uniform.
Qed.

Lemma feed_monitor_counts_witness :
  exists p,
    render (mount true 0) = Monitor p
    /\ (body p = Spinner <->
        loading (mount true 0) = true /\ executions (mount true 0) = []).
Proof.
  eexists. split; [reflexivity|].
  exact (proj1 (proj2 (feed_monitor_counts (mount true 0) _ eq_refl))).
Defined.

End FeedControls.

(** ** Strings *)

Section StringFacts.

Lemma append_assoc (a b c : string) :
  String.append (String.append a b) c = String.append a (String.append b c).
Proof. induction a as [|x a IH]; simpl; [reflexivity|now rewrite IH]. Qed.

Lemma length_append (a b : string) :
  String.length (String.append a b) = (String.length a + String.length b)%nat.
Proof. induction a as [|x a IH]; simpl; [reflexivity|now rewrite IH]. Qed.

Lemma append_inv_tail (a b s : string) :
  String.append a s = String.append b s -> a = b.
Proof.
  revert b. induction a as [|x a IH]; intros [|y b] H; simpl in H.
  - reflexivity.
  - apply (f_equal String.length) in H. simpl in H.
    rewrite length_append in H. lia.
  - apply (f_equal String.length) in H. simpl in H.
    rewrite length_append in H. lia.
  - injection H as -> H. now rewrite (IH _ H).
Qed.

Lemma startsWith_spec p s :
  Js.startsWith p s = true <-> exists b, s = String.append p b.
Proof.
  revert s. induction p as [|x p IH]; intros s; simpl.
  - split; [intros _; now exists s|reflexivity].
  - destruct s as [|y s]; simpl.
    + split; [discriminate|]. intros [b Hb]. discriminate Hb.
    + split.
      * intros H. apply andb_true_iff in H as [Hxy Hp].
        apply Ascii.eqb_eq in Hxy as ->.
        apply IH in Hp as [b ->]. now exists b.
      * intros [b Hb]. injection Hb as -> ->.
        rewrite Ascii.eqb_refl. simpl. apply IH. now exists b.
Qed.

Lemma includes_spec s p :
  Js.includes s p = true <->
  exists a b, s = String.append a (String.append p b).
Proof.
  induction s as [|x s IH].
  - simpl. rewrite orb_false_r, startsWith_spec. split.
    + intros [b Hb]. now exists "", b.
    + intros ([|y a] & b & H); simpl in H; [now exists b|discriminate H].
  - cbn [Js.includes]. rewrite orb_true_iff, startsWith_spec, IH. split.
    + intros [[b Hb]|(a & b & Hab)].
      * now exists "", b.
      * exists (String x a), b. simpl. now rewrite Hab.
    + intros ([|y a] & b & H); simpl in H.
      * left. now exists b.
      * right. injection H as -> ->. now exists a, b.
Qed.



Lemma sameText_spec a b : Js.sameText a b = true <-> a = b.
Proof.
  destruct a as [x|], b as [y|]; simpl; split; intros H;
    try reflexivity; try discriminate.
  - now apply String.eqb_eq in H as ->.
  - injection H as ->. apply String.eqb_refl.
Qed.

End StringFacts.

(** ** The client *)

(** X11: the telemetry stream URL lies under the client's base path and
    tells the robots apart: two robot ids with the same URL are the same
    id. *)
Theorem telemetry_url_is_injective (robotId robotId' : string) :
  Js.startsWith Api.API_BASE (Api.getRobotTelemetryUrl robotId) = true
  /\ (Api.getRobotTelemetryUrl robotId = Api.getRobotTelemetryUrl robotId' ->
      robotId = robotId').
Proof.
  split; [reflexivity|].
  unfold Api.getRobotTelemetryUrl, Api.API_BASE. cbn [String.concat].
  intros H. repeat (simpl in H; injection H as H).
  now apply append_inv_tail in H.
Qed.

Lemma telemetry_url_is_injective_witness :
  Api.getRobotTelemetryUrl "tractor-7" =
    "/api/n8n-nkz/ros2/robots/tractor-7/telemetry/stream"
  /\ "tractor-7" = "tractor-7".
Proof.
  split; [reflexivity|].
  exact (proj2 (telemetry_url_is_injective "tractor-7" "tractor-7") eq_refl).
Defined.

(** ** The workflow panel *)

Section PanelExtras.
Import WorkflowStatusPanel.




Lemma length_filter_bool_le {A : Type} (p : A -> bool) (l : list A) :
  (length (List.filter p l) <= length l)%nat.
Proof. induction l as [|x l IH]; simpl; [lia|]. destruct (p x); simpl; lia. Qed.

Lemma executable_spec st w :
  In w (executable st) ->
  isAuthenticated st = true /\ tenantAdmin st = true /\ loading st = false /\
  Js.truthy (selectedEntityId st) = true /\
  active w = true /\ In w (workflows st).
Proof.
  unfold executable, panelShown.
  destruct (isAuthenticated st); simpl; [|contradiction].
  destruct (Js.truthy (selectedEntityId st)); simpl; [|contradiction].
  destruct (loading st); simpl; [contradiction|].
  destruct (tenantAdmin st); simpl; [|contradiction].
  intros H. apply filter_In in H as [H Hact].
  repeat split; auto.
  unfold relatedWorkflows in H.
  assert (H' : In w (List.filter (fun w0 => relatedToEntity w0 || active w0)
                       (workflows st))).
  { revert H. generalize (List.filter (fun w0 => relatedToEntity w0 || active w0)
                            (workflows st)).
    intros l. generalize 5%nat. intros n. revert l.
    induction n as [|n IH]; intros [|x l]; simpl; try contradiction.
    intros [->|H]; [now left|right; now apply IH]. }
  now apply filter_In in H' as [H' _].
Qed.

Lemma truthy_spec o :
  Js.truthy o = true -> exists s, o = Some s /\ s <> "" /\ String.eqb s "" = false.
Proof.
  destruct o as [s|]; simpl; [|discriminate].
  destruct (String.eqb s "") eqn:E; [discriminate|]. intros _.
  exists s. repeat split; auto. now apply String.eqb_neq.
Qed.

(** X13: what the panel lets a user dispatch.  Executing a workflow is
    possible only for an authenticated tenant administrator with an
    entity selected, while the panel is not loading, and only for a
    workflow the panel holds and that is active; at most five workflows
    are offered.  The click sends one [executeWorkflow] request for that
    workflow, carrying the selected entity's non-empty id and its type,
    and changes nothing the panel shows.  The two quick actions need the
    same user and selection; each sends its one request, carrying the
    non-empty entity id (NDVI alone for the analysis, type [production]
    for the prediction), and changes nothing else. *)
Theorem panel_actions_are_gated (now : Z) (st st' : State) (ev : Event) :
  (exists workflowId, ev = ExecuteClicked workflowId) \/
  ev = AnalysisClicked \/ ev = PredictClicked ->
  step now st ev = Some st' ->
  isAuthenticated st = true /\ tenantAdmin st = true
  /\ (length (executable st) <= 5)%nat
  /\ workflows st' = workflows st /\ loading st' = loading st
  /\ error st' = error st
  /\ exists entityId,
       selectedEntityId st = Some entityId /\ entityId <> "" /\
       match ev with
       | ExecuteClicked workflowId =>
           loading st = false /\
           (exists w, In w (workflows st) /\ id w = workflowId /\
                      active w = true) /\
           api st' = api st ++
             [(now, Api.executeWorkflow workflowId
                      {| Api.entityId := entityId;
                         Api.entityType := selectedEntityType st |})] /\
           pending st' = pending st ++ [Executing (selectedEntityType st)]
       | AnalysisClicked =>
           pending st' = pending st /\
           exists request,
             api st' = api st ++ [(now, Api.requestAnalysis request)] /\
             SentinelAnalysisRequest.parcelId request = entityId /\
             SentinelAnalysisRequest.indices request =
               [SentinelAnalysisRequest.NDVI]
       | PredictClicked =>
           pending st' = pending st /\
           exists request,
             api st' = api st ++ [(now, Api.requestPrediction request)] /\
             PredictionRequest.entityId request = entityId /\
             PredictionRequest.type request = PredictionRequest.production /\
             PredictionRequest.entityType request = selectedEntityType st
       | Settled _ _ => False
       end.
Proof.
  assert (Hfive : (length (executable st) <= 5)%nat).
  { unfold executable. destruct (_ && _); simpl; [|lia].
    etransitivity; [apply length_filter_bool_le|].
    rewrite length_firstn. lia. }
  intros [[workflowId ->]|[->| ->]]; simpl; intros Hstep.
  - destruct (existsb _ (executable st)) eqn:Hex; [|discriminate].
    injection Hstep as <-.
    apply existsb_exists in Hex as (w & Hin & Hid).
    apply String.eqb_eq in Hid.
    destruct (executable_spec st w Hin) as (Ha & Hadm & Hl & Ht & Hact & Hw).
    destruct (truthy_spec _ Ht) as (entityId & Hsel & Hne & Heqb).
    unfold executeWorkflow. rewrite Hsel, Heqb. simpl.
    repeat (split; [assumption || reflexivity|]).
    exists entityId. repeat split; try assumption.
    exists w. auto.
  - unfold quickActionsShown, panelShown in Hstep.
    destruct (isAuthenticated st); [|discriminate].
    destruct (Js.truthy (selectedEntityId st)) eqn:Ht; [|discriminate].
    destruct (tenantAdmin st); [|discriminate]. simpl in Hstep.
    injection Hstep as <-.
    destruct (truthy_spec _ Ht) as (entityId & Hsel & Hne & Heqb).
    simpl. repeat (split; [assumption || reflexivity|]).
    exists entityId. repeat split; try assumption.
    eexists. split; [reflexivity|]. rewrite Hsel. split; reflexivity.
  - unfold quickActionsShown, panelShown in Hstep.
    destruct (isAuthenticated st); [|discriminate].
    destruct (Js.truthy (selectedEntityId st)) eqn:Ht; [|discriminate].
    destruct (tenantAdmin st); [|discriminate]. simpl in Hstep.
    injection Hstep as <-.
    destruct (truthy_spec _ Ht) as (entityId & Hsel & Hne & Heqb).
    simpl. repeat (split; [assumption || reflexivity|]).
    exists entityId. repeat split; try assumption.
    eexists. split; [reflexivity|]. rewrite Hsel. repeat split.
Qed.

Lemma panel_actions_are_gated_witness :
  exists st st',
    Hub.run (Spec.mounted true true (Some "parcel-1") (Some "AgriParcel") 0)
      [ Hub.Panel (Settled 0%nat (Workflows (Js.Fulfilled
          {| Api.workflows := [Spec.irrigationWorkflow] |}))) ]
      = Some st
    /\ step 0 (Hub.panel st) (ExecuteClicked "wf-7") = Some st'
    /\ tenantAdmin (Hub.panel st) = true.
Proof.
  eexists. eexists.
  split; [vm_compute; reflexivity|].
  match goal with
  | |- step 0 ?p _ = _ /\ _ =>
      eassert (Hstep : step 0 p (ExecuteClicked "wf-7") = Some _)
        by (vm_compute; reflexivity)
  end.
  split; [exact Hstep|].
  exact (proj1 (proj2 (panel_actions_are_gated 0 _ _ (ExecuteClicked "wf-7")
                         (or_introl (ex_intro _ "wf-7" eq_refl)) Hstep))).
Defined.


(** X14: a spinner that can stay on.  When the request that refreshes
    the workflows after an execution fails, while the panel is loading,
    the panel records the error and stays loading: it then offers no
    workflow to execute, and no click on an execute button is possible
    until some other response clears the flag.  The response to the
    panel's own fetch, in contrast, always clears the flag, fulfilled or
    rejected. *)
Theorem panel_failed_refresh_leaves_spinner
    (now : Z) (st st' : State) (i : nat) (entityType : option string)
    (message : option string) :
  pending st !! i = Some (Refreshing entityType) ->
  loading st = true ->
  step now st (Settled i (Workflows (Js.Rejected message))) = Some st' ->
  loading st' = true
  /\ error st' = Some (Js.orElse message "Failed to execute workflow")
  /\ pending st' = delete i (pending st)
  /\ executable st' = []
  /\ (forall t workflowId, step t st' (ExecuteClicked workflowId) = None)
  /\ (forall j ty r st'',
        pending st !! j = Some (FetchingWorkflows ty) ->
        step now st (Settled j (Workflows r)) = Some st'' ->
        loading st'' = false).
Proof.
  intros Hi Hl; simpl. rewrite Hi. intros [= <-]. simpl.
  assert (Hex : executable
                  (setError (Some (Js.orElse message "Failed to execute workflow"))
                     (resumed i st)) = []).
  { unfold executable; simpl. rewrite Hl; simpl.
    now rewrite andb_false_r. }
  split; [exact Hl|]. split; [reflexivity|]. split; [reflexivity|].
  split; [exact Hex|]. split.
  - intros t workflowId. cbn [step]. now rewrite Hex.
  - intros j ty r st'' Hj. rewrite Hj. intros [= <-]. now destruct r.
Qed.

Lemma panel_failed_refresh_leaves_spinner_witness :
  exists w st',
    Hub.run (Spec.mounted true true (Some "parcel-1") (Some "AgriParcel") 0)
      (Spec.executeClicked ++
       [ Hub.Panel (Settled 0%nat (Executed (Js.Fulfilled
           (Spec.acknowledgment "exec-42")))) ]) = Some w
    /\ step 0 (Hub.panel w)
         (Settled 0%nat (Workflows (Js.Rejected (Some "HTTP 502")))) = Some st'
    /\ loading st' = true
    /\ pending st' = [].
Proof.
  eassert (Hrun : Hub.run
                    (Spec.mounted true true (Some "parcel-1")
                       (Some "AgriParcel") 0)
                    (Spec.executeClicked ++
                     [ Hub.Panel (Settled 0%nat (Executed (Js.Fulfilled
                         (Spec.acknowledgment "exec-42")))) ]) = Some _)
    by (vm_compute; reflexivity).
  match type of Hrun with
  | _ = Some ?w0 =>
      eassert (Hstep : step 0 (Hub.panel w0)
                         (Settled 0%nat
                            (Workflows (Js.Rejected (Some "HTTP 502"))))
                       = Some _)
        by (vm_compute; reflexivity)
  end.
  eexists. eexists.
  split; [exact Hrun|]. split; [exact Hstep|].
  split; [|reflexivity].
  match type of Hstep with
  | step _ ?p _ = Some ?q =>
      exact (proj1 (panel_failed_refresh_leaves_spinner 0 p q 0%nat
                      (Some "AgriParcel") (Some "HTTP 502")
                      eq_refl eq_refl Hstep))
  end.
Defined.

(** X15: selecting an entity.  Selecting the entity already selected (same
    id, same type) changes nothing.  Selecting another one while the user
    is authenticated records the selection, clears the error, sets
    [loading] and sends exactly one [getWorkflows] request at once,
    keeping the workflows held until the response comes; while the user
    is not authenticated it only records the selection.  In no case are
    the health slot or the execution feed affected. *)
Theorem panel_entity_selection
    (w w' : Hub.World) (entityId entityType : option string) :
  Hub.step w (Hub.EntitySelected entityId entityType) = Some w' ->
  Hub.health w' = Hub.health w /\ Hub.feed w' = Hub.feed w
  /\ Hub.clock w' = Hub.clock w
  /\ workflows (Hub.panel w') = workflows (Hub.panel w)
  /\ (entityId = selectedEntityId (Hub.panel w) /\
      entityType = selectedEntityType (Hub.panel w) ->
      Hub.panel w' = Hub.panel w)
  /\ (~ (entityId = selectedEntityId (Hub.panel w) /\
         entityType = selectedEntityType (Hub.panel w)) ->
      selectedEntityId (Hub.panel w') = entityId /\
      selectedEntityType (Hub.panel w') = entityType /\
      if isAuthenticated (Hub.panel w)
      then api (Hub.panel w') =
             api (Hub.panel w) ++ [(Hub.clock w, Api.getWorkflows)] /\
           pending (Hub.panel w') =
             pending (Hub.panel w) ++ [FetchingWorkflows entityType] /\
           loading (Hub.panel w') = true /\ error (Hub.panel w') = None
      else api (Hub.panel w') = api (Hub.panel w) /\
           pending (Hub.panel w') = pending (Hub.panel w) /\
           loading (Hub.panel w') = loading (Hub.panel w) /\
           error (Hub.panel w') = error (Hub.panel w)).
Proof.
  simpl. intros [= <-]. simpl.
  do 3 (split; [reflexivity|]).
  unfold hooksChanged. rewrite Bool.eqb_reflx. simpl.
  destruct (Js.sameText entityId _) eqn:E1;
    [destruct (Js.sameText entityType _) eqn:E2|]; simpl.
  - apply sameText_spec in E1, E2. repeat split; auto. tauto.
  - assert (Hne : entityType <> selectedEntityType (Hub.panel w)).
    { intros H. apply sameText_spec in H. congruence. }
    unfold effect; simpl.
    destruct (isAuthenticated (Hub.panel w)); simpl;
      (split; [reflexivity|]); (split; [tauto|]); auto 10.
  - assert (Hne : entityId <> selectedEntityId (Hub.panel w)).
    { intros H. apply sameText_spec in H. congruence. }
    unfold effect; simpl.
    destruct (isAuthenticated (Hub.panel w)); simpl;
      (split; [reflexivity|]); (split; [tauto|]); auto 10.
Qed.

Lemma panel_entity_selection_witness :
  exists w',
    Hub.step (Spec.mounted true false None None 0)
      (Hub.EntitySelected (Some "parcel-1") (Some "AgriParcel")) = Some w'
    /\ Hub.feed w' = Hub.feed (Spec.mounted true false None None 0).
Proof.
  eexists. split; [reflexivity|].
  exact (proj1 (proj2 (panel_entity_selection
                         (Spec.mounted true false None None 0) _
                         (Some "parcel-1") (Some "AgriParcel") eq_refl))).
Defined.

End PanelExtras.

(** ** The standalone view *)

Section AppExtras.
Import ModuleApp.

Lemma frozen_toggled id w : Invariants.frozen (toggled id w) = Invariants.frozen w.
Proof. unfold toggled. now destruct (String.eqb _ id). Qed.

Lemma toggled_twice id w : toggled id (toggled id w) = w.
Proof.
  unfold toggled. destruct (String.eqb (WorkflowItem.id w) id) eqn:E; simpl;
    rewrite E; [|reflexivity].
  destruct w; simpl. now rewrite negb_involutive.
Qed.

Lemma toggled_absent id (l : list WorkflowItem.t) :
  (forall w, In w l -> WorkflowItem.id w <> id) -> map (toggled id) l = l.
Proof.
  induction l as [|x l IH]; simpl; intros H; [reflexivity|].
  rewrite IH by auto. unfold toggled.
  destruct (String.eqb_spec (WorkflowItem.id x) id) as [E|E]; [|reflexivity].
  exfalso. apply (H x); auto.
Qed.

Lemma total_of_frozen (l1 l2 : list WorkflowItem.t) : forall a,
  map Invariants.frozen l1 = map Invariants.frozen l2 ->
  fold_left (fun acc w => acc + WorkflowItem.executions w) l1 a =
  fold_left (fun acc w => acc + WorkflowItem.executions w) l2 a.
Proof.
  revert l2. induction l1 as [|x l1 IH]; intros [|y l2] a H; simpl in *;
    try discriminate; [reflexivity|].
  injection H as _ _ _ _ He H. rewrite He. now apply IH.
Qed.

Lemma successful_of_frozen (l1 l2 : list WorkflowItem.t) :
  map Invariants.frozen l1 = map Invariants.frozen l2 ->
  length (filter (fun w => WorkflowItem.status w = WorkflowItem.success) l1) =
  length (filter (fun w => WorkflowItem.status w = WorkflowItem.success) l2).
Proof.
  revert l2. induction l1 as [|x l1 IH]; intros [|y l2] H; simpl in *;
    try discriminate; [reflexivity|].
  injection H as _ _ _ Hs _ H. rewrite !filter_cons, Hs.
  destruct (decide _); simpl; now rewrite (IH _ H).
Qed.

Lemma frozen_map_toggled id l :
  map Invariants.frozen (map (toggled id) l) = map Invariants.frozen l.
Proof. rewrite map_map. apply map_ext. apply frozen_toggled. Qed.

(** X16: toggling a workflow.  Toggling the same workflow twice restores
    the state; one toggle changes nothing but [active] flags, so the
    total of executions, the number of successful workflows, the
    integrations and every workflow's id, name, status and count stay as
    they were; and toggling an id that no workflow has changes
    nothing. *)
Theorem app_toggle_is_an_involution (id : string) (st : State) :
  toggleWorkflow id (toggleWorkflow id st) = st
  /\ totalExecutions (toggleWorkflow id st) = totalExecutions st
  /\ successfulToday (toggleWorkflow id st) = successfulToday st
  /\ activeIntegrations (toggleWorkflow id st) = activeIntegrations st
  /\ map Invariants.frozen (workflows (toggleWorkflow id st)) =
     map Invariants.frozen (workflows st)
  /\ loading (toggleWorkflow id st) = loading st
  /\ ((forall w, In w (workflows st) -> WorkflowItem.id w <> id) ->
      toggleWorkflow id st = st).
Proof.
  split.
  { destruct st as [ints ws ld ts]. unfold toggleWorkflow, setWorkflows; simpl.
    f_equal. rewrite map_map. rewrite <- (map_id ws) at 2.
    apply map_ext. apply toggled_twice. }
  split.
  { apply total_of_frozen. apply frozen_map_toggled. }
  split.
  { apply successful_of_frozen. apply frozen_map_toggled. }
  split; [reflexivity|].
  split; [apply frozen_map_toggled|].
  split; [reflexivity|].
  intros H. destruct st as [ints ws ld ts].
  unfold toggleWorkflow, setWorkflows; simpl. f_equal.
  now apply toggled_absent.
Qed.

Lemma app_toggle_is_an_involution_witness :
  (forall w, In w (workflows (initial 0)) -> WorkflowItem.id w <> "9")
  /\ toggleWorkflow "9" (initial 0) = initial 0.
Proof.
  assert (H : forall w, In w (workflows (initial 0)) -> WorkflowItem.id w <> "9").
  { simpl. intros w [<-|[<-|[<-|[<-|[<-|[]]]]]]; discriminate. }
  split; [exact H|].
  exact (proj2 (proj2 (proj2 (proj2 (proj2 (proj2
           (app_toggle_is_an_involution "9" (initial 0))))))) H).
Defined.

Lemma active_count_toggle id (l : list WorkflowItem.t) w :
  List.NoDup (map WorkflowItem.id l) -> In w l -> WorkflowItem.id w = id ->
  (WorkflowItem.active w = true ->
   (0 < length (List.filter WorkflowItem.active l))%nat)
  /\ length (List.filter WorkflowItem.active (map (toggled id) l)) =
     if WorkflowItem.active w
     then Nat.pred (length (List.filter WorkflowItem.active l))
     else S (length (List.filter WorkflowItem.active l)).
Proof.
  induction l as [|x l IH]; simpl; [contradiction|].
  intros Hnd Hin Hid. apply List.NoDup_cons_iff in Hnd as [Hx Hnd].
  destruct Hin as [->|Hin].
  - rewrite toggled_absent.
    2:{ intros w' Hw' E. apply Hx. rewrite Hid, <- E. now apply in_map. }
    unfold toggled. rewrite Hid, String.eqb_refl. simpl.
    destruct (WorkflowItem.active w); simpl; split; auto; lia.
  - destruct (IH Hnd Hin Hid) as [Hpos Hcount].
    assert (Hne : WorkflowItem.id x <> id).
    { intros E. apply Hx. rewrite E, <- Hid. now apply in_map. }
    unfold toggled at 1.
    destruct (String.eqb_spec (WorkflowItem.id x) id); [contradiction|].
    destruct (WorkflowItem.active x); simpl; rewrite Hcount;
      destruct (WorkflowItem.active w); split; intros; try lia;
      specialize (Hpos eq_refl); lia.
Qed.

(** X17: the Active Workflows figure.  When the workflows have distinct
    ids, toggling one of them moves the figure by exactly one: down when
    the workflow was active (the figure was then at least one), up when
    it was not. *)
Theorem app_toggle_moves_active_count
    (id : string) (st : State) (w : WorkflowItem.t) :
  List.NoDup (map WorkflowItem.id (workflows st)) ->
  In w (workflows st) -> WorkflowItem.id w = id ->
  activeWorkflows (toggleWorkflow id st) =
    (if WorkflowItem.active w
     then Nat.pred (activeWorkflows st) else S (activeWorkflows st))
  /\ (WorkflowItem.active w = true -> (0 < activeWorkflows st)%nat).
Proof.
  intros Hnd Hin Hid.
  destruct (active_count_toggle id (workflows st) w Hnd Hin Hid) as [Hpos Hc].
  split; [exact Hc|exact Hpos].
Qed.

Lemma app_toggle_moves_active_count_witness :
  activeWorkflows (toggleWorkflow "4" (initial 0)) = 4%nat.
Proof.
  refine (proj1 (app_toggle_moves_active_count "4" (initial 0)
                   {| WorkflowItem.id := "4";
                      WorkflowItem.name := "Odoo Sync - Harvests";
                      WorkflowItem.active := false;
                      WorkflowItem.lastExecution := None;
                      WorkflowItem.status := WorkflowItem.idle;
                      WorkflowItem.executions := 0 |}
                   _ _ _)).
  - simpl. repeat constructor; simpl; intuition discriminate.
  - simpl. auto 10.
  - reflexivity.
Defined.


Lemma appTidy_step t0 s ev s' :
  step s ev = Some s' -> Invariants.appTidy t0 s -> Invariants.appTidy t0 s'.
Proof.
  destruct s as [now st]. unfold Invariants.appTidy. simpl.
  intros Hstep (Hl & Hlen & Hdue & Hints & Hws).
  destruct ev as [dt|id| |i]; simpl in Hstep.
  - destruct (0 <=? dt) eqn:Hdt; [|discriminate].
    destruct (forallb _ (timeouts st)) eqn:Hall; [|discriminate].
    injection Hstep as <-. simpl. apply Z.leb_le in Hdt.
    repeat split; auto; try apply Hl.
    rewrite forallb_forall in Hall. rewrite Forall_forall in Hdue |- *.
    intros due Hin. specialize (Hdue due Hin).
    apply list_elem_of_In in Hin. specialize (Hall due Hin).
    apply Z.leb_le in Hall. lia.
  - destruct (existsb _ (workflows st)); [|discriminate].
    injection Hstep as <-. simpl.
    repeat split; auto; try apply Hl.
    now rewrite frozen_map_toggled.
  - destruct (loading st) eqn:Hld; [discriminate|].
    injection Hstep as <-. simpl.
    assert (Hnone : timeouts st = []).
    { destruct (timeouts st) as [|d l]; [reflexivity|].
      assert (false = true) by (apply Hl; discriminate). discriminate. }
    rewrite Hnone. simpl.
    repeat split; auto; try discriminate.
    repeat constructor; lia.
  - destruct (timeouts st) as [|d [|d' l]] eqn:Hts; simpl in Hlen; try lia;
      destruct i as [|i]; simpl in Hstep; try discriminate.
    destruct (d =? now); [|discriminate]. injection Hstep as <-. simpl.
    rewrite Hts. simpl.
    repeat split; auto; try discriminate; try constructor.
Qed.

Lemma appTidy_run t0 evs : forall s s',
  run s evs = Some s' -> Invariants.appTidy t0 s -> Invariants.appTidy t0 s'.
Proof.
  induction evs as [|ev evs IH]; simpl; intros s s'.
  - now intros [= <-].
  - destruct (step s ev) as [s1|] eqn:E; [|discriminate].
    eauto using appTidy_step.
Qed.

(** X18: the standalone view over any sequence of events.  The spinner
    is on exactly while the timeout of a refresh is awaited, at most one
    refresh is ever in progress, and it ends within one second of the
    click.  Nothing ever changes the integrations, and nothing changes a
    workflow except its [active] flag: the figures for active
    integrations, total executions and successful workflows are the same
    at all times. *)
Theorem app_refresh_is_single_and_data_is_fixed
    (t0 : Z) (evs : list Event) (s : Z * State) :
  run (t0, initial t0) evs = Some s ->
  (loading (snd s) = true <-> timeouts (snd s) <> [])
  /\ (length (timeouts (snd s)) <= 1)%nat
  /\ Forall (fun due => fst s <= due <= fst s + 1000) (timeouts (snd s))
  /\ integrations (snd s) = initialIntegrations t0
  /\ map Invariants.frozen (workflows (snd s)) =
     map Invariants.frozen (initialWorkflows t0)
  /\ activeIntegrations (snd s) = 4%nat
  /\ totalExecutions (snd s) = 479
  /\ successfulToday (snd s) = 2%nat.
Proof.
  intros Hrun.
  assert (H0 : Invariants.appTidy t0 (t0, initial t0)).
  { unfold Invariants.appTidy; simpl.
    repeat split; auto; try discriminate; try constructor. }
  destruct (appTidy_run t0 evs _ _ Hrun H0) as (Hl & Hlen & Hdue & Hints & Hws).
  repeat (split; [assumption|]).
  split; [unfold activeIntegrations; now rewrite Hints|].
  split.
  - unfold totalExecutions.
    now rewrite (total_of_frozen _ _ 0 Hws).
  - unfold successfulToday. now rewrite (successful_of_frozen _ _ Hws).
Qed.

Lemma app_refresh_is_single_and_data_is_fixed_witness :
  exists s,
    run (0, initial 0)
      [ RefreshClicked; Wait 400; ToggleClicked "2"; Wait 600;
        TimeoutFired 0%nat; RefreshClicked ] = Some s
    /\ totalExecutions (snd s) = 479.
Proof.
  eexists. split; [vm_compute; reflexivity|].
  refine (proj1 (proj2 (proj2 (proj2 (proj2 (proj2 (proj2
            (app_refresh_is_single_and_data_is_fixed 0
               [ RefreshClicked; Wait 400; ToggleClicked "2"; Wait 600;
                 TimeoutFired 0%nat; RefreshClicked ] _ _)))))))).
  vm_compute; reflexivity.
Defined.

End AppExtras.

Section PanelListing.
Import WorkflowStatusPanel.

Lemma In_firstn {A : Type} (n : nat) (l : list A) (x : A) :
  In x (firstn n l) -> In x l.
Proof.
  revert l. induction n as [|n IH]; intros [|y l]; simpl; try contradiction.
  intros [->|H]; [now left|right; now apply IH].
Qed.

Lemma filter_firstn_all {A : Type} (p : A -> bool) (l : list A) :
  (forall x, In x l -> p x = true) -> List.filter p l = l.
Proof.
  induction l as [|x l IH]; simpl; intros H; [reflexivity|].
  rewrite (H x) by auto. now rewrite IH by auto.
Qed.

(** X19: what the panel lists.  The rendered panel lists at most five
    workflows, each of them related to the entity or active, and none
    while loading; every workflow offered for execution is among those
    listed.  When a fetch made with no entity type (or an empty one) is
    answered, every workflow of the response is listed, up to the first
    five, in the order of the response. *)
Theorem panel_listing
    (st : State) (banner : option string) (spinner : bool)
    (listed : list WorkflowSummary) (quickActions : bool) :
  render st = Panel banner spinner listed quickActions ->
  (length listed <= 5)%nat
  /\ Forall (fun w => relatedToEntity w || active w = true) listed
  /\ (spinner = true -> listed = [])
  /\ (forall w, In w (executable st) -> In w listed)
  /\ (forall entityType response,
        entityType = None \/ entityType = Some "" ->
        relatedWorkflows
          (fetchWorkflows_settled entityType (Js.Fulfilled response) st) =
        map (summary entityType) (Api.workflows response)).
Proof.
  unfold render.
  destruct (isAuthenticated st) eqn:Ha; [|discriminate]. simpl.
  destruct (Js.truthy (selectedEntityId st)) eqn:Ht; [|discriminate]. simpl.
  intros [= <- <- <- <-].
  split.
  { destruct (loading st); simpl; [lia|]. rewrite length_firstn. lia. }
  split.
  { destruct (loading st); [constructor|].
    apply Forall_forall. intros w Hw. apply list_elem_of_In in Hw.
    apply In_firstn in Hw. unfold relatedWorkflows in Hw.
    now apply filter_In in Hw as [_ Hw]. }
  split; [now intros ->|].
  split.
  { intros w. unfold executable, panelShown. rewrite Ha, Ht. simpl.
    destruct (loading st); simpl; [contradiction|].
    destruct (tenantAdmin st); simpl; [|contradiction].
    intros Hw. now apply filter_In in Hw as [Hw _]. }
  intros entityType response Hty.
  unfold relatedWorkflows, fetchWorkflows_settled; simpl.
  apply filter_firstn_all. intros w Hw.
  apply in_map_iff in Hw as (x & <- & _).
  assert (Hrel : relatedToEntity (summary entityType x) = true).
  { unfold summary; simpl.
    assert (He : Js.orElse (option_map Js.toLowerCase entityType) "" = "")
      by (destruct Hty as [->| ->]; reflexivity).
    rewrite He. apply includes_spec.
    now exists "", (Js.toLowerCase (N8nWorkflow.name x)). }
  now rewrite Hrel.
Qed.

Lemma panel_listing_witness :
  exists listed,
    render (initial true true (Some "parcel-1") None) =
      Panel None false listed true
    /\ (length listed <= 5)%nat.
Proof.
  eexists. split; [reflexivity|].
  exact (proj1 (panel_listing (initial true true (Some "parcel-1") None)
                  _ _ _ _ eq_refl)).
Defined.

End PanelListing.
